(** * SleekFinance launcher (launch.py): a shallow embedding and its properties

    The launcher is a sequential script over an external world: a file
    system, a console, a clock and child processes.  The world is an
    explicit state; every function of launch.py is a computation in a
    state-and-exception monad over it.

    Scope of the model.
    - A file system maps paths to regular files (with their text) and
      directories.  Symbolic links are taken as resolved, and permissions
      are not modelled.
    - A child process is what the launcher observes of it: whether it could
      be spawned, the lines of its merged output, and its return code.
      Children do not write to the launcher's log.
    - An open text file buffers what is written to it until it is flushed or
      closed; the file system holds what has been flushed.  A buffer that
      overflows and is written out early is not modelled.
    - The console holds the writes in the order in which they are issued;
      the buffer of sys.stdout is not modelled.
    - Besides its state the world keeps a journal, the console writes and
      the writes of buffers out to files in the order in which they happen,
      so that what happens inside a run can be stated. *)

From Stdlib Require Import ZArith Ascii String List Lia.
From stdpp Require Import base gmap strings list pretty.

Open Scope Z_scope.

(** ** Strings *)

(** The line terminator, Python's "\n". *)
Definition nl : string := String (ascii_of_nat 10) "".

(** [s * n] on Python strings. *)
Fixpoint str_mul (s : string) (n : nat) : string :=
  match n with
  | O => ""
  | S n' => s +:+ str_mul s n'
  end.

(** The text made of the given pieces, one after the other. *)
Definition cat (l : list string) : string := foldr String.append "" l.

(** ** Time stamps *)

Record datetime := {
  year : nat; month : nat; day : nat;
  hour : nat; minute : nat; second : nat;
  microsecond : nat
}.

(** A number in decimal, padded with zeros on the left up to [width]. *)
Definition zpad (width : nat) (n : nat) : string :=
  str_mul "0" (width - String.length (pretty n)) +:+ pretty n.

(** [strftime("%Y-%m-%d %H:%M:%S")] *)
Definition strftime (d : datetime) : string :=
  zpad 4 (year d) +:+ "-" +:+ zpad 2 (month d) +:+ "-" +:+ zpad 2 (day d)
  +:+ " " +:+ zpad 2 (hour d) +:+ ":" +:+ zpad 2 (minute d)
  +:+ ":" +:+ zpad 2 (second d).

(** [isoformat()] of a naive datetime: the fraction is printed only when
    the microsecond field is not zero. *)
Definition isoformat (d : datetime) : string :=
  zpad 4 (year d) +:+ "-" +:+ zpad 2 (month d) +:+ "-" +:+ zpad 2 (day d)
  +:+ "T" +:+ zpad 2 (hour d) +:+ ":" +:+ zpad 2 (minute d)
  +:+ ":" +:+ zpad 2 (second d)
  +:+ (if Nat.eqb (microsecond d) 0 then "" else "." +:+ zpad 6 (microsecond d)).

(** ** Exceptions *)

Inductive errno := ENOENT | EACCES | EEXIST | ENOTDIR | EISDIR.

Inductive exn :=
| RuntimeError (msg : string)
| ValueError (msg : string)
| OSError (code : errno) (filename : string).

Definition errno_num (e : errno) : nat :=
  match e with
  | ENOENT => 2 | EACCES => 13 | EEXIST => 17 | ENOTDIR => 20 | EISDIR => 21
  end.

Definition strerror (e : errno) : string :=
  match e with
  | ENOENT => "No such file or directory"
  | EACCES => "Permission denied"
  | EEXIST => "File exists"
  | ENOTDIR => "Not a directory"
  | EISDIR => "Is a directory"
  end.

(** [str(exc)] *)
Definition exn_str (e : exn) : string :=
  match e with
  | RuntimeError msg => msg
  | ValueError msg => msg
  | OSError code filename =>
      "[Errno " +:+ pretty (errno_num code) +:+ "] " +:+ strerror code
      +:+ ": '" +:+ filename +:+ "'"
  end.

Inductive result (A : Type) :=
| Ret (a : A)
| Raise (e : exn).
Arguments Ret {A} a.
Arguments Raise {A} e.

(** ** Paths and the file system *)

(** A path is the list of its components below the file-system root;
    the empty list is the root itself. *)
Abbreviation path := (list string).

(** [p / name] *)
Definition path_div (p : path) (name : string) : path := p ++ [name].

(** [p.parent]; the root is its own parent. *)
Definition parent (p : path) : path := removelast p.

(** [str(p)] *)
Definition path_str (p : path) : string :=
  match p with
  | [] => "/"
  | _ => cat (map (fun c => "/" +:+ c) p)
  end.

Inductive entry :=
| File (content : string)
| Dir.

Definition path_exists (p : path) (fs : gmap path entry) : bool :=
  match p with
  | [] => true
  | _ => match fs !! p with Some _ => true | None => false end
  end.

Definition is_dir (p : path) (fs : gmap path entry) : bool :=
  match p with
  | [] => true
  | _ => match fs !! p with Some Dir => true | _ => false end
  end.

(** [os.mkdir(p)]: the errors of the system call, in the order the kernel
    finds them. *)
Definition os_mkdir (p : path) (fs : gmap path entry) : errno + gmap path entry :=
  if path_exists p fs then inl EEXIST
  else if negb (path_exists (parent p) fs) then inl ENOENT
  else if negb (is_dir (parent p) fs) then inl ENOTDIR
  else inr (<[p := Dir]> fs).

(** [Path.mkdir(parents=False, exist_ok=True)] *)
Definition mkdir_exist_ok (p : path) (fs : gmap path entry)
  : result (gmap path entry) :=
  match os_mkdir p fs with
  | inr fs' => Ret fs'
  | inl ENOENT => Raise (OSError ENOENT (path_str p))
  | inl e => if is_dir p fs then Ret fs else Raise (OSError e (path_str p))
  end.

(** [Path.mkdir(parents=True, exist_ok=True)], on the reversed path [rp] so
    that the call on the parent is a call on the tail:
      try os.mkdir(self)
      except FileNotFoundError:
        if self.parent == self: raise
        self.parent.mkdir(parents=True, exist_ok=True)
        self.mkdir(parents=False, exist_ok=True)
      except OSError:
        if not self.is_dir(): raise *)
Fixpoint mkdir_parents_rev (rp : list string) (fs : gmap path entry)
  : result (gmap path entry) :=
  let p := rev rp in
  match os_mkdir p fs with
  | inr fs' => Ret fs'
  | inl ENOENT =>
      match rp with
      | [] => Raise (OSError ENOENT (path_str p))
      | _ :: rparent =>
          match mkdir_parents_rev rparent fs with
          | Ret fs1 => mkdir_exist_ok p fs1
          | Raise e => Raise e
          end
      end
  | inl e => if is_dir p fs then Ret fs else Raise (OSError e (path_str p))
  end.

Definition mkdir_parents (p : path) (fs : gmap path entry)
  : result (gmap path entry) :=
  mkdir_parents_rev (rev p) fs.

Definition is_file (p : path) (m : gmap path entry) : bool :=
  match m !! p with Some (File _) => true | _ => false end.

(** No regular file at the path (given reversed) nor above it. *)
Fixpoint no_file_on_rev (rp : list string) (m : gmap path entry) : bool :=
  match rp with
  | [] => true
  | _ :: rparent => negb (is_file (rev rp) m) && no_file_on_rev rparent m
  end.

(** What a successful mkdir changes: entries are only added, they are
    directories, and they lie on the way to the path. *)
Definition only_dirs_added (p : path) (m m' : gmap path entry) : Prop :=
  forall q, m' !! q = m !! q \/
            (m !! q = None /\ m' !! q = Some Dir /\ q `prefix_of` p).

(** Text added at the end of a regular file. *)
Definition entry_append (s : string) (e : entry) : entry :=
  match e with
  | File c => File (c +:+ s)
  | Dir => Dir
  end.

(** ** The world *)

(** An open text file: where it writes, and the text written to it that
    has not reached the file yet. *)
Record handle := { h_path : path; h_buffer : string }.

(** What can be seen from outside as a run goes on: a write to the console,
    or the buffer of an open file written out to the file. *)
Inductive event :=
| Printed (s : string)
| Flushed (p : path) (s : string).

Record World := {
  fs : gmap path entry;
  open_files : gmap nat handle;
  (** the arguments of the writes to the console, oldest first *)
  console : list string;
  (** the commands handed to subprocess with their working directory,
      oldest first *)
  spawned : list (list string * path);
  (** how many times the clock has been read *)
  ticks : nat;
  (** the events so far, oldest first *)
  journal : list event
}.



(** What a child process does, as seen by the launcher. *)
Inductive outcome :=
| CannotSpawn (e : exn)
| Exited (output : list string) (returncode : Z).

(** What launch.py takes from its environment. *)
Record Env := {
  (** [pathlib.Path(__file__).parent] *)
  ROOT : path;
  (** the value of the n-th reading of the clock *)
  now : nat -> datetime;
  (** the behaviour of the n-th child: command, working directory *)
  child : nat -> list string -> path -> outcome;
  (** [Path.resolve()] *)
  resolve : path -> path
}.

(** ** The monad of the script *)

Definition M (A : Type) : Type := World -> result A * World.

Definition ret {A} (a : A) : M A := fun w => (Ret a, w).

Definition raise {A} (e : exn) : M A := fun w => (Raise e, w).

Definition bind {A B} (m : M A) (k : A -> M B) : M B :=
  fun w =>
    match m w with
    | (Ret a, w') => k a w'
    | (Raise e, w') => (Raise e, w')
    end.

(** [try: m  except Exception as exc: ...], the exception handed over as a
    value. *)
Definition try_except {A} (m : M A) : M (exn + A) :=
  fun w =>
    match m w with
    | (Ret a, w') => (Ret (inr a), w')
    | (Raise e, w') => (Ret (inl e), w')
    end.

Declare Scope script_scope.
Delimit Scope script_scope with script.
Notation "'let*' x ':=' m 'in' k" := (bind m (fun x => k))
  (at level 10, x name, m at level 100, k at level 200) : script_scope.
Notation "m ';;' k" := (bind m (fun _ => k))
  (at level 100, k at level 200, right associativity) : script_scope.
Open Scope script_scope.

(** [for x in l: body x] *)
Fixpoint for_each {A} (l : list A) (body : A -> M unit) : M unit :=
  match l with
  | [] => ret tt
  | x :: l' => body x ;; for_each l' body
  end.

(** ** The primitives launch.py calls *)

Section Launch.

Context (env : Env).

(** [sys.stdout.write(s)] *)
Definition stdout_write (s : string) : M unit :=
  fun w =>
    (Ret tt, {| fs := fs w; open_files := open_files w;
                console := console w ++ [s];
                spawned := spawned w; ticks := ticks w;
                journal := journal w ++ [Printed s] |}).

(** [print(s)]: the text and the line terminator. *)
Definition print (s : string) : M unit := stdout_write (s +:+ nl).

(** [datetime.datetime.now()] *)
Definition datetime_now : M datetime :=
  fun w =>
    (Ret (now env (ticks w)),
     {| fs := fs w; open_files := open_files w; console := console w;
        spawned := spawned w; ticks := S (ticks w); journal := journal w |}).

(** [p.exists()] *)
Definition exists_ (p : path) : M bool :=
  fun w => (Ret (path_exists p (fs w)), w).

(** [p.mkdir(parents=True, exist_ok=True)] *)
Definition mkdir (p : path) : M unit :=
  fun w =>
    match mkdir_parents p (fs w) with
    | Ret fs' =>
        (Ret tt, {| fs := fs'; open_files := open_files w;
                    console := console w; spawned := spawned w;
                    ticks := ticks w; journal := journal w |})
    | Raise e => (Raise e, w)
    end.

(** [p.open("a", encoding="utf-8")]: the file is created empty when it is
    missing, and is never truncated.  The result is the new file object. *)
Definition open_append (p : path) : M nat :=
  fun w =>
    if is_dir p (fs w) then (Raise (OSError EISDIR (path_str p)), w)
    else if negb (path_exists (parent p) (fs w))
    then (Raise (OSError ENOENT (path_str p)), w)
    else if negb (is_dir (parent p) (fs w))
    then (Raise (OSError ENOTDIR (path_str p)), w)
    else
      let fd := fresh (dom (open_files w)) in
      (Ret fd,
       {| fs := if path_exists p (fs w) then fs w else <[p := File ""]> (fs w);
          open_files := <[fd := {| h_path := p; h_buffer := "" |}]> (open_files w);
          console := console w; spawned := spawned w; ticks := ticks w; journal := journal w |}).

(** [f.write(s)]: the text goes to the buffer of the file object. *)
Definition write (f : nat) (s : string) : M unit :=
  fun w =>
    match open_files w !! f with
    | None => (Raise (ValueError "I/O operation on closed file."), w)
    | Some h =>
        (Ret tt,
         {| fs := fs w;
            open_files :=
              <[f := {| h_path := h_path h; h_buffer := h_buffer h +:+ s |}]>
                (open_files w);
            console := console w; spawned := spawned w; ticks := ticks w; journal := journal w |})
    end.

(** [f.flush()]: the buffer goes to the end of the file. *)
Definition flush (f : nat) : M unit :=
  fun w =>
    match open_files w !! f with
    | None => (Raise (ValueError "I/O operation on closed file."), w)
    | Some h =>
        (Ret tt,
         {| fs := alter (entry_append (h_buffer h)) (h_path h) (fs w);
            open_files :=
              <[f := {| h_path := h_path h; h_buffer := "" |}]> (open_files w);
            console := console w; spawned := spawned w; ticks := ticks w;
            journal := journal w ++ [Flushed (h_path h) (h_buffer h)] |})
    end.

(** [f.close()]: flushes, then the file object is gone. *)
Definition close (f : nat) : M unit :=
  fun w =>
    match open_files w !! f with
    | None => (Ret tt, w)
    | Some h =>
        (Ret tt,
         {| fs := alter (entry_append (h_buffer h)) (h_path h) (fs w);
            open_files := delete f (open_files w);
            console := console w; spawned := spawned w; ticks := ticks w;
            journal := journal w ++ [Flushed (h_path h) (h_buffer h)] |})
    end.

(** [with p.open("a") as f: body f]: the file is closed on the way out,
    whether the body returns or raises. *)
Definition with_open_append {A} (p : path) (body : nat -> M A) : M A :=
  let* f := open_append p in
  fun w =>
    match body f w with
    | (r, w') => (r, snd (close f w'))
    end.

(** A child handed to [subprocess]: the call is recorded, and the
    environment says what the child does. *)
Definition spawn (command : list string) (cwd : path) : M (list string * Z) :=
  fun w =>
    let w' := {| fs := fs w; open_files := open_files w; console := console w;
                 spawned := spawned w ++ [(command, cwd)]; ticks := ticks w; journal := journal w |} in
    match child env (length (spawned w)) command cwd with
    | CannotSpawn e => (Raise e, w')
    | Exited output returncode => (Ret (output, returncode), w')
    end.

(** [subprocess.run(command, cwd=cwd)]: the child inherits the console and
    writes its output there; the result is its return code. *)
Definition subprocess_run (command : list string) (cwd : path) : M Z :=
  let* p := spawn command cwd in
  for_each (fst p) stdout_write ;;
  ret (snd p).

(** A [Popen] object whose merged output is a pipe read as text: the lines
    the pipe yields, and the return code [wait] collects. *)
Record process := { stdout : list string; returncode : Z }.

(** [subprocess.Popen(command, cwd=cwd, stdout=PIPE, stderr=STDOUT, text=True)] *)
Definition Popen (command : list string) (cwd : path) : M process :=
  let* p := spawn command cwd in
  ret {| stdout := fst p; returncode := snd p |}.

(** ** launch.py *)

Definition LOG_DIR : path := path_div (ROOT env) "logs".
Definition LOG_FILE : path := path_div LOG_DIR "sleekfinance-dev.log".

Definition log (message : string) : M unit :=
  let* timestamp := datetime_now in
  print ("[" +:+ strftime timestamp +:+ "] " +:+ message).

Definition ensure_dependencies : M unit :=
  let node_modules := path_div (ROOT env) "node_modules" in
  let* present := exists_ node_modules in
  if present then
    log "Dependencies already installed. Skipping npm install."
  else
    log "Installing dependencies with npm install …" ;;
    let* result := subprocess_run ["npm"; "install"] (ROOT env) in
    if negb (result =? 0) then
      raise (RuntimeError "npm install failed. Check the log for details.")
    else ret tt.

(** The three writes that open a section of the log. *)
Definition separator : string := nl +:+ str_mul "=" 80 +:+ nl.
Definition launch_line (t : datetime) : string :=
  "Launch at " +:+ isoformat t +:+ nl.
Definition command_line (command : list string) : string :=
  "Command: " +:+ String.concat " " command +:+ nl +:+ nl.

(** The write that closes it. *)
Definition footer (code : Z) : string :=
  nl +:+ "Process exited with code " +:+ pretty code +:+ nl.

(** The loop of stream_process:
      for line in process.stdout:
        sys.stdout.write(line); log_handle.write(line); log_handle.flush() *)
Definition tee (log_handle : nat) (lines : list string) : M unit :=
  for_each lines (fun line =>
    stdout_write line ;;
    write log_handle line ;;
    flush log_handle).

(** [assert process.stdout is not None] holds of every [Popen] above, and
    [process.wait()] changes nothing the model sees: the return code is
    already in the process. *)
Definition stream_process (command : list string) : M Z :=
  mkdir LOG_DIR ;;
  with_open_append LOG_FILE (fun log_handle =>
    write log_handle separator ;;
    let* t := datetime_now in
    write log_handle (launch_line t) ;;
    write log_handle (command_line command) ;;
    let* process := Popen command (ROOT env) in
    tee log_handle (stdout process) ;;
    write log_handle (footer (returncode process)) ;;
    ret (returncode process)).

Definition dev_command : list string :=
  ["npm"; "run"; "dev"; "--"; "--host"; "0.0.0.0"].

Definition main : M Z :=
  log "Starting SleekFinance launcher…" ;;
  let* r := try_except ensure_dependencies in
  match r with
  | inl exc =>
      log ("Dependency installation failed: " +:+ exn_str exc) ;;
      ret 1
  | inr _ =>
      let command := dev_command in
      let* exit_code := stream_process command in
      (if exit_code =? 0 then
         log ("Development server exited cleanly. Full log written to "
              +:+ path_str LOG_FILE +:+ ".")
       else
         log ("Development server exited with errors. Review the log file at "
              +:+ path_str (resolve env LOG_FILE) +:+ " for diagnostics.")) ;;
      ret exit_code
  end.

(** ** Words for the statements *)

(** The text of the log, empty when there is no log yet. *)
Definition log_content (m : gmap path entry) : string :=
  match m !! LOG_FILE with Some (File c) => c | _ => "" end.

(** The file system lets the log be written: no regular file sits at the
    log directory or above it, and the log itself is not a directory. *)
Definition log_writable (m : gmap path entry) : bool :=
  no_file_on_rev (rev LOG_DIR) m && negb (is_dir LOG_FILE m).

Definition header (t : datetime) (command : list string) : string :=
  separator +:+ launch_line t +:+ command_line command.

(** One framed section of the log. *)
Definition log_section (t : datetime) (command : list string)
    (output : list string) (code : Z) : string :=
  header t command +:+ cat output +:+ footer code.

Definition log_line (t : datetime) (message : string) : string :=
  ("[" +:+ strftime t +:+ "] " +:+ message) +:+ nl.

Definition node_modules : path := path_div (ROOT env) "node_modules".

Definition npm_install : list string := ["npm"; "install"].

(** The world after [npm install] has been tried. *)
Definition after_install (output : list string) (w : World) : World :=
  {| fs := fs w; open_files := open_files w;
     console := console w ++
       [log_line (now env (ticks w)) "Installing dependencies with npm install …"]
       ++ output;
     spawned := spawned w ++ [(npm_install, ROOT env)];
     ticks := S (ticks w);
     journal := journal w ++
       [Printed (log_line (now env (ticks w))
                   "Installing dependencies with npm install …")]
       ++ map Printed output |}.

(** The world once main has announced itself. *)
Definition started (w : World) : World :=
  {| fs := fs w; open_files := open_files w;
     console := console w ++
       [log_line (now env (ticks w)) "Starting SleekFinance launcher…"];
     spawned := spawned w; ticks := S (ticks w);
     journal := journal w ++
       [Printed (log_line (now env (ticks w)) "Starting SleekFinance launcher…")] |}.

(** The last message of main, after a development server that exited. *)
Definition farewell (code : Z) : string :=
  if code =? 0 then
    "Development server exited cleanly. Full log written to "
    +:+ path_str LOG_FILE +:+ "."
  else
    "Development server exited with errors. Review the log file at "
    +:+ path_str (resolve env LOG_FILE) +:+ " for diagnostics.".

(** Whether the installation is skipped, and what the children do in a run
    of main that starts in [w]. *)
Definition install_skipped (w : World) : bool :=
  path_exists node_modules (fs w).

Definition install_result (w : World) : outcome :=
  child env (length (spawned w)) npm_install (ROOT env).

Definition dev_result (w : World) : outcome :=
  child env (length (spawned w) + (if install_skipped w then 0 else 1))%nat
    dev_command (ROOT env).

(** The installation is skipped, or [npm install] exits with code 0. *)
Definition deps_ok (w : World) : bool :=
  install_skipped w ||
  match install_result w with
  | Exited _ code => code =? 0
  | CannotSpawn _ => false
  end.

(** The world in which main calls stream_process. *)
Definition deps_done (w : World) : World :=
  if install_skipped w then
    {| fs := fs w; open_files := open_files w;
       console := console (started w) ++
         [log_line (now env (S (ticks w)))
            "Dependencies already installed. Skipping npm install."];
       spawned := spawned w; ticks := S (S (ticks w));
       journal := journal (started w) ++
         [Printed (log_line (now env (S (ticks w)))
                     "Dependencies already installed. Skipping npm install.")] |}
  else
    after_install
      match install_result w with Exited output _ => output | _ => [] end
      (started w).

(** The events of the loop of stream_process on a file object open on the
    file at [p], with text [b] in its buffer when the loop starts: each
    line is printed, and then the buffer, which holds the line after what
    was there, is written out. *)
Fixpoint tee_events (p : path) (b : string) (lines : list string) : list event :=
  match lines with
  | [] => []
  | line :: rest => Printed line :: Flushed p (b +:+ line) :: tee_events p "" rest
  end.

(** The events of an invocation of stream_process whose child exits: those
    of the loop, and the buffer written out when the log is closed, which
    holds the footer, after the header when the loop has not run. *)
Definition section_events (t : datetime) (command output : list string)
    (code : Z) : list event :=
  tee_events LOG_FILE (header t command) output
  ++ [Flushed LOG_FILE
        (match output with [] => header t command | _ => "" end +:+ footer code)].

End Launch.

(** ** Concrete runs, for the examples *)

Definition at_noon (s : nat) : datetime :=
  {| year := 2024; month := 3; day := 9; hour := 12; minute := 0;
     second := s; microsecond := 0 |}.

(** An environment in which [npm install] exits with [install_code], the
    development server prints two lines and exits with [dev_code], [echo]
    prints its arguments, and no other program is found. *)
Definition demo_env (install_code dev_code : Z) : Env :=
  {| ROOT := ["srv"; "app"];
     now := fun n => at_noon n;
     child := fun _ command _ =>
       match command with
       | ["npm"; "install"] => Exited ["added 1 package" +:+ nl] install_code
       | "npm" :: "run" :: _ =>
           Exited ["ready" +:+ nl; "stopped" +:+ nl] dev_code
       | "echo" :: args => Exited [String.concat " " args +:+ nl] 0
       | program :: _ => CannotSpawn (OSError ENOENT program)
       | [] => CannotSpawn (ValueError "empty command")
       end;
     resolve := fun p => p |}.

(** An environment in which no program is found. *)
Definition bare_env : Env :=
  {| ROOT := ["srv"; "app"];
     now := fun n => at_noon n;
     child := fun _ command _ => CannotSpawn (OSError ENOENT (hd "" command));
     resolve := fun p => p |}.

Definition world_of (m : gmap path entry) : World :=
  {| fs := m; open_files := ∅; console := []; spawned := []; ticks := 0; journal := [] |}.

(** A checkout in which nothing is installed and nothing has run. *)
Definition w_fresh : World :=
  world_of {[ ["srv"] := Dir; ["srv"; "app"] := Dir ]}.

(** The same, with the dependencies installed. *)
Definition w_ready : World :=
  world_of {[ ["srv"] := Dir; ["srv"; "app"] := Dir;
              ["srv"; "app"; "node_modules"] := Dir ]}.

(** The same, with a regular file where the dependencies would be. *)
Definition w_marker_file : World :=
  world_of {[ ["srv"] := Dir; ["srv"; "app"] := Dir;
              ["srv"; "app"; "node_modules"] := File "" ]}.

(** Nothing installed, and a log from earlier runs. *)
Definition w_old_log : World :=
  world_of {[ ["srv"] := Dir; ["srv"; "app"] := Dir;
              ["srv"; "app"; "logs"] := Dir;
              ["srv"; "app"; "logs"; "sleekfinance-dev.log"] := File "old" ]}.

(** A checkout with the dependencies installed, in which a regular file
    named logs sits where the log directory would be. *)
Definition w_logs_is_file : World :=
  world_of {[ ["srv"] := Dir; ["srv"; "app"] := Dir;
              ["srv"; "app"; "node_modules"] := Dir;
              ["srv"; "app"; "logs"] := File "notes" ]}.

(** The same, with a directory where the log file would be. *)
Definition w_log_is_dir : World :=
  world_of {[ ["srv"] := Dir; ["srv"; "app"] := Dir;
              ["srv"; "app"; "node_modules"] := Dir;
              ["srv"; "app"; "logs"] := Dir;
              ["srv"; "app"; "logs"; "sleekfinance-dev.log"] := Dir ]}.

(** A log open for appending, with text waiting in the buffer. *)
Definition w_open_log : World :=
  {| fs := {[ ["log"] := File "old" ]};
     open_files := {[ 3%nat := {| h_path := ["log"]; h_buffer := "head" |} ]};
     console := []; spawned := []; ticks := 0; journal := [] |}.


(** ** Strings: append *)

Lemma append_cons (a : ascii) (s t : string) :
  String a s +:+ t = String a (s +:+ t).
Proof. reflexivity. Qed.

Lemma append_nil_l (s : string) : "" +:+ s = s.
Proof. reflexivity. Qed.

Lemma append_nil_r (s : string) : s +:+ "" = s.
Proof. induction s as [|a s IH]; [reflexivity|]. now rewrite append_cons, IH. Qed.

Lemma append_assoc (s t u : string) : (s +:+ t) +:+ u = s +:+ t +:+ u.
Proof.
  induction s as [|a s IH]; [reflexivity|]. now rewrite !append_cons, IH.
Qed.

Lemma cat_cons (s : string) (l : list string) : cat (s :: l) = s +:+ cat l.
Proof. reflexivity. Qed.

Lemma cat_app (l1 l2 : list string) : cat (l1 ++ l2) = cat l1 +:+ cat l2.
Proof.
  induction l1 as [|s l1 IH]; [reflexivity|].
  change ((s :: l1) ++ l2) with (s :: (l1 ++ l2)).
  now rewrite !cat_cons, IH, append_assoc.
Qed.

Lemma append_length (s t : string) :
  String.length (s +:+ t) = (String.length s + String.length t)%nat.
Proof.
  induction s as [|a s IH]; [reflexivity|].
  rewrite append_cons. cbn [String.length]. now rewrite IH.
Qed.

(** ** The file system: what mkdir does *)

Lemma alter_known (m : gmap path entry) (p : path) (e : entry) (f : entry -> entry) :
  m !! p = Some e -> alter f p m = <[p := f e]> m.
Proof.
  intros H. apply map_eq. intros q. rewrite lookup_alter, lookup_insert.
  destruct (decide (p = q)) as [->|]; [now rewrite H|reflexivity].
Qed.

Lemma parent_snoc (p : path) (x : string) : parent (p ++ [x]) = p.
Proof. apply removelast_last. Qed.

Lemma snoc_not_nil {A} (l : list A) (x : A) : l ++ [x] <> [].
Proof. destruct l; discriminate. Qed.

Lemma path_exists_lookup (p : path) (m : gmap path entry) :
  p <> [] -> path_exists p m = true <-> is_Some (m !! p).
Proof.
  intros Hp. destruct p as [|x p]; [congruence|]. cbn.
  destruct (m !! (x :: p)) as [e|]; split; intros H.
  - now exists e.
  - reflexivity.
  - discriminate.
  - destruct H as [e H]. discriminate.
Qed.

Lemma is_dir_lookup (p : path) (m : gmap path entry) :
  p <> [] -> is_dir p m = true <-> m !! p = Some Dir.
Proof.
  intros Hp. destruct p as [|x p]; [congruence|]. cbn.
  destruct (m !! (x :: p)) as [[c|]|]; split; intros H; done.
Qed.

Lemma only_dirs_added_refl (p : path) (m : gmap path entry) :
  only_dirs_added p m m.
Proof. intros q. now left. Qed.

Lemma os_mkdir_inr (p : path) (m m' : gmap path entry) :
  os_mkdir p m = inr m' ->
  m' = <[p := Dir]> m /\ p <> [] /\ m !! p = None /\ is_dir (parent p) m = true.
Proof.
  unfold os_mkdir. intros H.
  destruct (path_exists p m) eqn:He; [discriminate|].
  destruct (path_exists (parent p) m); [|discriminate].
  destruct (is_dir (parent p) m) eqn:Hd; [|discriminate].
  cbn in H. inversion H; subst. repeat split.
  - intros ->. discriminate.
  - destruct p; [discriminate|]. cbn in He. now destruct (m !! (s :: p)).
Qed.

Lemma os_mkdir_added (p : path) (m m' : gmap path entry) :
  os_mkdir p m = inr m' -> only_dirs_added p m m' /\ is_dir p m' = true.
Proof.
  intros H. apply os_mkdir_inr in H as (-> & Hp & Hn & _). split.
  - intros q. destruct (decide (p = q)) as [<-|Hne].
    + right. now rewrite lookup_insert_eq.
    + left. now rewrite lookup_insert_ne.
  - apply is_dir_lookup; [assumption|]. apply lookup_insert_eq.
Qed.

Lemma mkdir_exist_ok_added (p : path) (m m' : gmap path entry) :
  mkdir_exist_ok p m = Ret m' -> only_dirs_added p m m' /\ is_dir p m' = true.
Proof.
  unfold mkdir_exist_ok. destruct (os_mkdir p m) as [e|m1] eqn:H.
  - destruct e; try discriminate;
      (destruct (is_dir p m) eqn:Hd; [|discriminate]);
      intros [= <-]; (split; [apply only_dirs_added_refl|assumption]).
  - intros [= <-]. now apply os_mkdir_added.
Qed.

Lemma only_dirs_added_trans (p p' : path) (m1 m2 m3 : gmap path entry) :
  p `prefix_of` p' ->
  only_dirs_added p m1 m2 -> only_dirs_added p' m2 m3 ->
  only_dirs_added p' m1 m3.
Proof.
  intros Hpp H12 H23 q.
  destruct (H12 q) as [E12|(N1 & D2 & P2)], (H23 q) as [E23|(N2 & D3 & P3)].
  - left. congruence.
  - right. repeat split; congruence.
  - right. repeat split; [assumption|congruence|]. now transitivity p.
  - congruence.
Qed.

Lemma mkdir_parents_rev_added (rp : list string) (m m' : gmap path entry) :
  mkdir_parents_rev rp m = Ret m' ->
  only_dirs_added (rev rp) m m' /\ is_dir (rev rp) m' = true.
Proof.
  revert m'. induction rp as [|x rp IH]; intros m'; cbn [mkdir_parents_rev].
  - destruct (os_mkdir (rev []) m) as [e|m1] eqn:H.
    + destruct e; try discriminate;
        (destruct (is_dir (rev []) m) eqn:Hd; [|discriminate]);
        intros [= <-]; (split; [apply only_dirs_added_refl|assumption]).
    + intros [= <-]. now apply os_mkdir_added.
  - destruct (os_mkdir (rev (x :: rp)) m) as [e|m1] eqn:H.
    + destruct e; try discriminate;
        try ((destruct (is_dir (rev (x :: rp)) m) eqn:Hd; [|discriminate]);
             intros [= <-]; (split; [apply only_dirs_added_refl|assumption])).
      destruct (mkdir_parents_rev rp m) as [m1|e] eqn:Hrec; [|discriminate].
      intros Hlast. destruct (IH m1 eq_refl) as [Hadd _].
      apply mkdir_exist_ok_added in Hlast as [Hadd' Hdir]. split; [|assumption].
      eapply only_dirs_added_trans; [|exact Hadd|exact Hadd'].
      cbn [rev]. now apply prefix_app_r.
    + intros [= <-]. now apply os_mkdir_added.
Qed.

Lemma is_dir_exists (p : path) (m : gmap path entry) :
  is_dir p m = true -> path_exists p m = true.
Proof.
  destruct p as [|x p]; [reflexivity|]. unfold is_dir, path_exists.
  now destruct (m !! (x :: p)) as [[c|]|].
Qed.

Lemma exists_not_dir (p : path) (m : gmap path entry) :
  path_exists p m = true -> is_dir p m = false -> is_file p m = true.
Proof.
  destruct p as [|x p]; [discriminate|]. unfold is_dir, path_exists, is_file.
  now destruct (m !! (x :: p)) as [[c|]|].
Qed.

Lemma prefix_snoc_self {A} (l : list A) (x : A) : ~ (l ++ [x]) `prefix_of` l.
Proof.
  intros H. apply prefix_length in H. rewrite length_app in H. cbn in H. lia.
Qed.

Lemma mkdir_parents_rev_clear (rp : list string) (m : gmap path entry) :
  no_file_on_rev rp m = true -> exists m', mkdir_parents_rev rp m = Ret m'.
Proof.
  induction rp as [|x rp IH]; intros Hclear.
  - exists m. reflexivity.
  - cbn [no_file_on_rev] in Hclear. apply andb_true_iff in Hclear as [Hx Hrp].
    apply negb_true_iff in Hx. cbn [mkdir_parents_rev].
    unfold os_mkdir. cbn [rev] in *. rewrite parent_snoc.
    destruct (path_exists (rev rp ++ [x]) m) eqn:He.
    + destruct (is_dir (rev rp ++ [x]) m) eqn:Hd; [now exists m|].
      rewrite (exists_not_dir _ _ He Hd) in Hx. discriminate.
    + destruct (path_exists (rev rp) m) eqn:Hp; cbn [negb].
      * destruct (is_dir (rev rp) m) eqn:Hd; cbn [negb]; [eauto|].
        pose proof (exists_not_dir _ _ Hp Hd) as Hf.
        destruct rp as [|y rp]; [discriminate|].
        cbn [no_file_on_rev] in Hrp. apply andb_true_iff in Hrp as [Hy _].
        rewrite Hf in Hy. discriminate.
      * destruct (IH Hrp) as [m1 Hm1]. rewrite Hm1.
        destruct (mkdir_parents_rev_added _ _ _ Hm1) as [Hadd Hdir].
        unfold mkdir_exist_ok, os_mkdir. rewrite parent_snoc.
        assert (path_exists (rev rp ++ [x]) m1 = false) as ->.
        { destruct (Hadd (rev rp ++ [x])) as [E|(_ & _ & P)].
          - rewrite <- He. unfold path_exists.
            destruct (rev rp ++ [x]); [reflexivity|]. now rewrite E.
          - now apply prefix_snoc_self in P. }
        rewrite (is_dir_exists _ _ Hdir), Hdir. cbn [negb]. eauto.
Qed.

Section Properties.

Context (env : Env).

Lemma LOG_FILE_not_root : LOG_FILE env <> [].
Proof. apply snoc_not_nil. Qed.

Lemma LOG_DIR_not_root : LOG_DIR env <> [].
Proof. apply snoc_not_nil. Qed.

Lemma parent_LOG_FILE : parent (LOG_FILE env) = LOG_DIR env.
Proof. apply parent_snoc. Qed.

Lemma LOG_FILE_not_above : ~ LOG_FILE env `prefix_of` LOG_DIR env.
Proof. apply prefix_snoc_self. Qed.

Lemma mkdir_keeps_log (m m' : gmap path entry) :
  mkdir_parents (LOG_DIR env) m = Ret m' -> m' !! LOG_FILE env = m !! LOG_FILE env.
Proof.
  intros H. apply mkdir_parents_rev_added in H as [Hadd _].
  rewrite rev_involutive in Hadd.
  destruct (Hadd (LOG_FILE env)) as [E|(_ & _ & P)]; [assumption|].
  now apply LOG_FILE_not_above in P.
Qed.

Lemma mkdir_makes_dir (m m' : gmap path entry) :
  mkdir_parents (LOG_DIR env) m = Ret m' -> m' !! LOG_DIR env = Some Dir.
Proof.
  intros H. apply mkdir_parents_rev_added in H as [_ Hdir].
  rewrite rev_involutive in Hdir.
  now apply is_dir_lookup in Hdir; [|apply LOG_DIR_not_root].
Qed.

Lemma log_writable_mkdir (m : gmap path entry) :
  log_writable env m = true ->
  exists m', mkdir_parents (LOG_DIR env) m = Ret m' /\ is_dir (LOG_FILE env) m' = false.
Proof.
  unfold log_writable. intros H. apply andb_true_iff in H as [Hc Hd].
  apply negb_true_iff in Hd.
  destruct (mkdir_parents_rev_clear _ _ Hc) as [m' Hm']. exists m'.
  split; [exact Hm'|]. rewrite <- Hd. unfold is_dir.
  now rewrite (mkdir_keeps_log _ _ Hm').
Qed.

Lemma tee_nil (f : nat) (w : World) : tee f [] w = (Ret tt, w).
Proof. reflexivity. Qed.

(** One turn of the loop. *)
Lemma tee_step (f : nat) (p : path) (l : string) (ls : list string)
    (w : World) (c b : string) :
  open_files w !! f = Some {| h_path := p; h_buffer := b |} ->
  fs w !! p = Some (File c) ->
  tee f (l :: ls) w =
  tee f ls
     {| fs := <[p := File (c +:+ b +:+ l)]> (fs w);
        open_files := <[f := {| h_path := p; h_buffer := "" |}]> (open_files w);
        console := console w ++ [l];
        spawned := spawned w; ticks := ticks w;
        journal := journal w ++ [Printed l; Flushed p (b +:+ l)] |}.
Proof.
  intros Hf Hp.
  change (tee f (l :: ls) w) with
    (bind (stdout_write l ;; write f l ;; flush f) (fun _ => tee f ls) w).
  unfold bind, stdout_write, write, flush. cbn [fs open_files console spawned ticks journal].
  rewrite Hf. cbn [fs open_files console spawned ticks journal].
  rewrite lookup_insert_eq. cbn [h_path h_buffer].
  rewrite (alter_known _ _ _ _ Hp). cbn [entry_append].
  now rewrite insert_insert_eq, <- (app_assoc (journal w)).
Qed.

Lemma tee_cons (f : nat) (p : path) (ls : list string) :
  forall (l : string) (w : World) (c b : string),
  open_files w !! f = Some {| h_path := p; h_buffer := b |} ->
  fs w !! p = Some (File c) ->
  tee f (l :: ls) w =
    (Ret tt,
     {| fs := <[p := File (c +:+ b +:+ cat (l :: ls))]> (fs w);
        open_files := <[f := {| h_path := p; h_buffer := "" |}]> (open_files w);
        console := console w ++ l :: ls;
        spawned := spawned w; ticks := ticks w;
        journal := journal w ++ tee_events p b (l :: ls) |}).
Proof.
  induction ls as [|l' ls IH]; intros l w c b Hf Hp;
    rewrite (tee_step _ _ _ _ _ _ _ Hf Hp).
  - rewrite tee_nil, cat_cons. cbn [cat foldr]. now rewrite append_nil_r.
  - erewrite IH; cbn [fs open_files]; [|apply lookup_insert_eq|apply lookup_insert_eq].
    cbn [console spawned ticks journal].
    rewrite !insert_insert_eq, append_nil_l, (cat_cons l), <- (app_assoc (console w)).
    now rewrite <- (app_assoc (journal w)), !append_assoc.
Qed.


(** ** stream_process, path by path *)

(** The directory cannot be made: nothing else happens. *)
Lemma stream_process_mkdir_raises (command : list string) (w : World) (e : exn) :
  mkdir_parents (LOG_DIR env) (fs w) = Raise e ->
  stream_process env command w = (Raise e, w).
Proof.
  intros H. unfold stream_process, bind, mkdir. now rewrite H.
Qed.

(** The log is a directory: it cannot be opened, and no child is spawned. *)
Lemma stream_process_open_raises (command : list string) (w : World)
    (m : gmap path entry) :
  mkdir_parents (LOG_DIR env) (fs w) = Ret m ->
  is_dir (LOG_FILE env) m = true ->
  stream_process env command w =
    (Raise (OSError EISDIR (path_str (LOG_FILE env))),
     {| fs := m; open_files := open_files w; console := console w;
        spawned := spawned w; ticks := ticks w; journal := journal w |}).
Proof.
  intros Hm Hd. unfold stream_process, bind, mkdir. rewrite Hm.
  unfold with_open_append, bind, open_append. cbn [fs]. now rewrite Hd.
Qed.

(** After mkdir, opening the log for appending gives a regular file with
    the text it had. *)
Lemma open_log (m : gmap path entry) :
  is_dir (LOG_FILE env) m = false ->
  (if path_exists (LOG_FILE env) m then m else <[LOG_FILE env := File ""]> m)
    !! LOG_FILE env = Some (File (log_content env m)).
Proof.
  intros Hd. unfold log_content.
  pose proof LOG_FILE_not_root as Hne. unfold is_dir, path_exists in *.
  destruct (LOG_FILE env) as [|x p] eqn:E; [congruence|].
  destruct (m !! (x :: p)) as [[c|]|] eqn:El; try discriminate.
  - assumption.
  - apply lookup_insert_eq.
Qed.

Lemma insert_open_log (m : gmap path entry) (e : entry) :
  <[LOG_FILE env := e]>
    (if path_exists (LOG_FILE env) m then m else <[LOG_FILE env := File ""]> m)
  = <[LOG_FILE env := e]> m.
Proof.
  destruct (path_exists (LOG_FILE env) m); [reflexivity|].
  apply insert_insert_eq.
Qed.

Lemma fresh_fd (o : gmap nat handle) : o !! fresh (dom o) = None.
Proof. apply not_elem_of_dom, is_fresh. Qed.

(** The child is spawned and exits: one framed section is appended. *)
Lemma stream_process_exited (command : list string) (w : World)
    (m : gmap path entry) (output : list string) (code : Z) :
  mkdir_parents (LOG_DIR env) (fs w) = Ret m ->
  is_dir (LOG_FILE env) m = false ->
  child env (length (spawned w)) command (ROOT env) = Exited output code ->
  stream_process env command w =
    (Ret code,
     {| fs := <[LOG_FILE env :=
                 File (log_content env (fs w)
                       +:+ log_section (now env (ticks w)) command output code)]> m;
        open_files := open_files w;
        console := console w ++ output;
        spawned := spawned w ++ [(command, ROOT env)];
        ticks := S (ticks w); 
        journal := journal w
          ++ section_events env (now env (ticks w)) command output code |}).
Proof.
  intros Hm Hd Hc. unfold stream_process, bind at 1, mkdir. rewrite Hm.
  unfold with_open_append, bind at 1, open_append.
  cbn [fs open_files console spawned ticks journal].
  rewrite Hd, parent_LOG_FILE.
  assert (m !! LOG_DIR env = Some Dir) as Hdir by now apply mkdir_makes_dir in Hm.
  apply is_dir_lookup in Hdir; [|apply LOG_DIR_not_root].
  rewrite (is_dir_exists _ _ Hdir), Hdir. cbn [negb].
  set (f := fresh (dom (open_files w))).
  unfold bind, write, datetime_now, Popen, spawn, ret.
  cbn [fs open_files console spawned ticks journal].
  repeat (rewrite lookup_insert_eq;
          cbn [h_path h_buffer fs open_files console spawned ticks journal]).
  unfold bind. cbn [fs open_files console spawned ticks journal].
  rewrite Hc, !insert_insert_eq, append_nil_l.
  cbn [stdout returncode fst snd].
  pose proof (open_log m Hd) as Hlog.
  assert (log_content env m = log_content env (fs w)) as Hsame
    by (unfold log_content; now rewrite (mkdir_keeps_log _ _ Hm)).
  destruct output as [|l ls].
  - rewrite tee_nil. cbn [fs open_files console spawned ticks journal].
    rewrite lookup_insert_eq. unfold close.
    cbn [h_path h_buffer snd fs open_files console spawned ticks journal].
    rewrite lookup_insert_eq.
    cbn [h_path h_buffer snd fs open_files console spawned ticks journal].
    rewrite (alter_known _ _ _ _ Hlog), insert_open_log, !insert_insert_eq.
    rewrite (delete_insert_id (open_files w) f _ (fresh_fd _)), app_nil_r.
    cbn [entry_append]. unfold section_events, log_section, header.
    cbn [cat foldr tee_events app].
    now rewrite Hsame, !append_assoc.
  - erewrite tee_cons; cbn [fs open_files]; [|apply lookup_insert_eq|exact Hlog].
    cbn [fs open_files console spawned ticks journal].
    rewrite lookup_insert_eq. unfold close.
    cbn [h_path h_buffer snd fs open_files console spawned ticks journal].
    rewrite lookup_insert_eq.
    cbn [h_path h_buffer snd fs open_files console spawned ticks journal].
    rewrite (alter_known _ _ _ _ (lookup_insert_eq _ _ _)).
    rewrite !insert_insert_eq, insert_open_log.
    rewrite (delete_insert_id (open_files w) f _ (fresh_fd _)).
    cbn [entry_append]. unfold section_events, log_section, header.
    now rewrite Hsame, <- (app_assoc (journal w)), !append_assoc.
Qed.

(** The child cannot be spawned: the failure comes out of stream_process,
    and the log keeps the header, written out when the file is closed. *)
Lemma stream_process_cannot_spawn (command : list string) (w : World)
    (m : gmap path entry) (e : exn) :
  mkdir_parents (LOG_DIR env) (fs w) = Ret m ->
  is_dir (LOG_FILE env) m = false ->
  child env (length (spawned w)) command (ROOT env) = CannotSpawn e ->
  stream_process env command w =
    (Raise e,
     {| fs := <[LOG_FILE env :=
                 File (log_content env (fs w)
                       +:+ header (now env (ticks w)) command)]> m;
        open_files := open_files w;
        console := console w;
        spawned := spawned w ++ [(command, ROOT env)];
        ticks := S (ticks w); 
        journal := journal w
          ++ [Flushed (LOG_FILE env) (header (now env (ticks w)) command)] |}).
Proof.
  intros Hm Hd Hc. unfold stream_process, bind at 1, mkdir. rewrite Hm.
  unfold with_open_append, bind at 1, open_append.
  cbn [fs open_files console spawned ticks journal].
  rewrite Hd, parent_LOG_FILE.
  assert (m !! LOG_DIR env = Some Dir) as Hdir by now apply mkdir_makes_dir in Hm.
  apply is_dir_lookup in Hdir; [|apply LOG_DIR_not_root].
  rewrite (is_dir_exists _ _ Hdir), Hdir. cbn [negb].
  set (f := fresh (dom (open_files w))).
  unfold bind, write, datetime_now, Popen, spawn, ret.
  cbn [fs open_files console spawned ticks journal].
  repeat (rewrite lookup_insert_eq;
          cbn [h_path h_buffer fs open_files console spawned ticks journal]).
  unfold bind. cbn [fs open_files console spawned ticks journal].
  rewrite Hc, !insert_insert_eq, append_nil_l.
  pose proof (open_log m Hd) as Hlog.
  assert (log_content env m = log_content env (fs w)) as Hsame
    by (unfold log_content; now rewrite (mkdir_keeps_log _ _ Hm)).
  unfold close. cbn [h_path h_buffer snd fs open_files console spawned ticks journal].
  rewrite lookup_insert_eq.
  cbn [h_path h_buffer snd fs open_files console spawned ticks journal].
  rewrite (alter_known _ _ _ _ Hlog), insert_open_log.
  rewrite (delete_insert_id (open_files w) f _ (fresh_fd _)).
  cbn [entry_append]. unfold header.
  now rewrite Hsame, !append_assoc.
Qed.

(** ** log, ensure_dependencies and main, path by path *)

Lemma log_run (message : string) (w : World) :
  log env message w =
    (Ret tt,
     {| fs := fs w; open_files := open_files w;
        console := console w ++ [log_line (now env (ticks w)) message];
        spawned := spawned w; ticks := S (ticks w); 
        journal := journal w ++ [Printed (log_line (now env (ticks w)) message)] |}).
Proof. reflexivity. Qed.

Lemma ensure_dependencies_skips (w : World) :
  path_exists (node_modules env) (fs w) = true ->
  ensure_dependencies env w =
    (Ret tt,
     {| fs := fs w; open_files := open_files w;
        console := console w ++
          [log_line (now env (ticks w))
             "Dependencies already installed. Skipping npm install."];
        spawned := spawned w; ticks := S (ticks w); 
        journal := journal w ++
          [Printed (log_line (now env (ticks w))
                      "Dependencies already installed. Skipping npm install.")] |}).
Proof.
  intros H. unfold ensure_dependencies, bind, exists_.
  fold (node_modules env). now rewrite H.
Qed.

Lemma for_each_stdout_write (l : list string) (w : World) :
  for_each l stdout_write w =
    (Ret tt,
     {| fs := fs w; open_files := open_files w; console := console w ++ l;
        spawned := spawned w; ticks := ticks w; 
        journal := journal w ++ map Printed l |}).
Proof.
  revert w. induction l as [|x l IH]; intros w.
  - cbn. rewrite !app_nil_r. now destruct w.
  - cbn [for_each]. unfold bind. cbn [stdout_write]. rewrite IH.
    cbn [fs open_files console spawned ticks journal map].
    now rewrite <- !app_assoc.
Qed.

Lemma ensure_dependencies_installs (w : World) (output : list string) (code : Z) :
  path_exists (node_modules env) (fs w) = false ->
  child env (length (spawned w)) npm_install (ROOT env) = Exited output code ->
  ensure_dependencies env w =
    (if code =? 0 then Ret tt
     else Raise (RuntimeError "npm install failed. Check the log for details."),
     after_install env output w).
Proof.
  intros H Hc. unfold ensure_dependencies, bind at 1, exists_.
  fold (node_modules env). rewrite H.
  unfold bind at 1. rewrite log_run. unfold bind at 1.
  unfold subprocess_run, bind at 1, spawn.
  cbn [fs open_files console spawned ticks journal]. fold npm_install. rewrite Hc.
  unfold bind. rewrite for_each_stdout_write.
  cbn [fs open_files console spawned ticks journal fst snd ret raise].
  unfold after_install. rewrite <- !app_assoc.
  now destruct (code =? 0).
Qed.

Lemma ensure_dependencies_no_npm (w : World) (e : exn) :
  path_exists (node_modules env) (fs w) = false ->
  child env (length (spawned w)) npm_install (ROOT env) = CannotSpawn e ->
  ensure_dependencies env w = (Raise e, after_install env [] w).
Proof.
  intros H Hc. unfold ensure_dependencies, bind at 1, exists_.
  fold (node_modules env). rewrite H.
  unfold bind at 1. rewrite log_run. unfold bind at 1.
  unfold subprocess_run, bind at 1, spawn.
  cbn [fs open_files console spawned ticks journal]. fold npm_install. rewrite Hc.
  unfold after_install. cbn [map]. now rewrite !app_nil_r.
Qed.


Lemma main_deps_raise (w w2 : World) (exc : exn) :
  ensure_dependencies env (started env w) = (Raise exc, w2) ->
  main env w =
    (Ret 1,
     {| fs := fs w2; open_files := open_files w2;
        console := console w2 ++
          [log_line (now env (ticks w2))
             ("Dependency installation failed: " +:+ exn_str exc)];
        spawned := spawned w2; ticks := S (ticks w2); 
        journal := journal w2 ++
          [Printed (log_line (now env (ticks w2))
                      ("Dependency installation failed: " +:+ exn_str exc))] |}).
Proof.
  intros H. unfold main, bind at 1. rewrite log_run. fold (started env w).
  unfold bind at 1, try_except. rewrite H. unfold bind. now rewrite log_run.
Qed.

Lemma main_deps_return (w w2 : World) :
  ensure_dependencies env (started env w) = (Ret tt, w2) ->
  main env w =
    match stream_process env (dev_command) w2 with
    | (Ret code, w3) =>
        (Ret code,
         {| fs := fs w3; open_files := open_files w3;
            console := console w3 ++ [log_line (now env (ticks w3)) (farewell env code)];
            spawned := spawned w3; ticks := S (ticks w3); 
            journal := journal w3 ++
              [Printed (log_line (now env (ticks w3)) (farewell env code))] |})
    | (Raise e, w3) => (Raise e, w3)
    end.
Proof.
  intros H. unfold main, bind at 1. rewrite log_run. fold (started env w).
  unfold bind at 1, try_except. rewrite H. unfold bind at 1.
  destruct (stream_process env dev_command w2) as [[code|e] w3]; [|reflexivity].
  unfold bind, farewell. destruct (code =? 0); now rewrite log_run.
Qed.

Lemma deps_ok_run (w : World) :
  deps_ok env w = true ->
  ensure_dependencies env (started env w) = (Ret tt, deps_done env w).
Proof.
  unfold deps_ok, deps_done, install_skipped, install_result. intros H.
  destruct (path_exists (node_modules env) (fs w)) eqn:He.
  - now rewrite ensure_dependencies_skips.
  - cbn [orb] in H.
    destruct (child env (length (spawned w)) npm_install (ROOT env))
      as [e|output code] eqn:Hc; [discriminate|].
    rewrite (ensure_dependencies_installs _ output code); [|exact He|exact Hc].
    now rewrite H.
Qed.

Lemma deps_fail_run (w : World) :
  deps_ok env w = false ->
  exists exc output,
    ensure_dependencies env (started env w) = (Raise exc, after_install env output (started env w)).
Proof.
  unfold deps_ok, install_skipped, install_result. intros H.
  apply orb_false_iff in H as [He H].
  destruct (child env (length (spawned w)) npm_install (ROOT env))
    as [e|output code] eqn:Hc.
  - exists e, []. now apply ensure_dependencies_no_npm.
  - exists (RuntimeError "npm install failed. Check the log for details."), output.
    rewrite (ensure_dependencies_installs _ output code); [|exact He|exact Hc].
    now rewrite H.
Qed.

Lemma deps_done_fs (w : World) : fs (deps_done env w) = fs w.
Proof. unfold deps_done. now destruct (install_skipped env w). Qed.

Lemma deps_done_spawned (w : World) :
  length (spawned (deps_done env w))
  = (length (spawned w) + (if install_skipped env w then 0 else 1))%nat.
Proof.
  unfold deps_done. destruct (install_skipped env w); cbn; [lia|].
  now rewrite length_app.
Qed.

Lemma deps_done_ticks (w : World) : ticks (deps_done env w) = S (S (ticks w)).
Proof. unfold deps_done. now destruct (install_skipped env w). Qed.


(** ** The claims *)

(** C1.  When the file system lets the log be written and the command is
    spawned and gives N lines of merged output, stream_process returns, the
    console has received exactly those N lines, unmodified and in order,
    after what it had, and the log holds what it held, then the header of
    this invocation, then the same N lines in the same order, then the
    footer. *)
Theorem stream_process_tees_output
    (command output : list string) (code : Z) (w : World) :
  log_writable env (fs w) = true ->
  child env (length (spawned w)) command (ROOT env) = Exited output code ->
  exists w',
    stream_process env command w = (Ret code, w') /\
    console w' = console w ++ output /\
    fs w' !! LOG_FILE env =
      Some (File (log_content env (fs w)
                  +:+ header (now env (ticks w)) command
                  +:+ cat output
                  +:+ footer code)).
Proof.
  intros Hw Hc. destruct (log_writable_mkdir _ Hw) as (m & Hm & Hd).
  eexists. split; [exact (stream_process_exited _ _ _ _ _ Hm Hd Hc)|].
  cbn [console fs]. split; [reflexivity|].
  rewrite lookup_insert_eq. reflexivity.
Qed.

(** C7.  In every invocation of stream_process in which the file system
    lets the log be written: afterwards the parent directory of the log
    exists, and the log holds what it held followed by the header, made of
    a separator line, a line with the ISO-8601 time of the launch and the
    command line; when the child is spawned and exits, stream_process
    returns its exit code and the log ends with the output of the child
    and a footer line with that code, which for a child that exits with 0
    is the line "Process exited with code 0". *)
Theorem stream_process_frames_log (command : list string) (w : World) :
  log_writable env (fs w) = true ->
  fs (snd (stream_process env command w)) !! LOG_DIR env = Some Dir /\
  (exists rest,
     fs (snd (stream_process env command w)) !! LOG_FILE env =
       Some (File (log_content env (fs w)
                   +:+ (nl +:+ str_mul "=" 80 +:+ nl)
                   +:+ ("Launch at " +:+ isoformat (now env (ticks w)) +:+ nl)
                   +:+ ("Command: " +:+ String.concat " " command +:+ nl +:+ nl)
                   +:+ rest))) /\
  (forall output code,
     child env (length (spawned w)) command (ROOT env) = Exited output code ->
     fst (stream_process env command w) = Ret code /\
     fs (snd (stream_process env command w)) !! LOG_FILE env =
       Some (File (log_content env (fs w)
                   +:+ header (now env (ticks w)) command
                   +:+ cat output
                   +:+ (nl +:+ "Process exited with code " +:+ pretty code +:+ nl))) /\
     (code = 0 ->
      exists before,
        fs (snd (stream_process env command w)) !! LOG_FILE env =
          Some (File (before +:+ "Process exited with code 0" +:+ nl)))).
Proof.
  intros Hw. destruct (log_writable_mkdir _ Hw) as (m & Hm & Hd).
  assert (LOG_FILE env <> LOG_DIR env) as Hne.
  { intros E. apply (prefix_snoc_self (LOG_DIR env) "sleekfinance-dev.log").
    fold (path_div (LOG_DIR env) "sleekfinance-dev.log"). fold (LOG_FILE env).
    now rewrite E. }
  destruct (child env (length (spawned w)) command (ROOT env))
    as [e|output code] eqn:Hc.
  - rewrite (stream_process_cannot_spawn _ _ _ _ Hm Hd Hc). cbn [fst snd fs].
    split; [|split].
    + rewrite (lookup_insert_ne _ _ _ _ Hne). exact (mkdir_makes_dir _ _ Hm).
    + exists "". rewrite lookup_insert_eq.
      unfold header, separator, launch_line, command_line.
      now rewrite ?append_assoc, append_nil_r.
    + discriminate.
  - rewrite (stream_process_exited _ _ _ _ _ Hm Hd Hc). cbn [fst snd fs].
    split; [|split].
    + rewrite (lookup_insert_ne _ _ _ _ Hne). exact (mkdir_makes_dir _ _ Hm).
    + exists (cat output +:+ footer code). rewrite lookup_insert_eq.
      unfold log_section, header, separator, launch_line, command_line.
      now rewrite ?append_assoc.
    + intros output' code' [= <- <-]. split; [reflexivity|]. split.
      * now rewrite lookup_insert_eq.
      * intros ->. rewrite lookup_insert_eq.
        exists (log_content env (fs w) +:+ header (now env (ticks w)) command
                +:+ cat output +:+ nl).
        unfold log_section, footer. change (pretty 0) with "0".
        now rewrite ?append_assoc.
Qed.

Lemma main_deps_ok (w : World) :
  deps_ok env w = true ->
  log_writable env (fs w) = true ->
  exists m,
    mkdir_parents (LOG_DIR env) (fs (deps_done env w)) = Ret m /\
    is_dir (LOG_FILE env) m = false /\
    ensure_dependencies env (started env w) = (Ret tt, deps_done env w).
Proof.
  intros Hok Hw. rewrite deps_done_fs.
  destruct (log_writable_mkdir _ Hw) as (m' & Hm & Hd).
  exists m'. repeat split; [assumption..|]. now apply deps_ok_run.
Qed.

(** C2.  In a run of main in which the dependency installation is skipped
    or succeeds, and the development server is spawned and exits, main
    returns the exit code of the development server; in a run in which the
    installation fails, main returns 1. *)
Theorem main_exit_code (w : World) :
  (forall output code,
     deps_ok env w = true ->
     log_writable env (fs w) = true ->
     dev_result env w = Exited output code ->
     fst (main env w) = Ret code) /\
  (deps_ok env w = false -> fst (main env w) = Ret 1).
Proof.
  split.
  - intros output code Hok Hw Hdev.
    destruct (main_deps_ok w Hok Hw) as (m & Hm & Hd & Hrun).
    rewrite (main_deps_return _ _ Hrun).
    unfold dev_result in Hdev. rewrite <- deps_done_spawned in Hdev.
    now rewrite (stream_process_exited _ _ _ _ _ Hm Hd Hdev).
  - intros Hfail. destruct (deps_fail_run _ Hfail) as (exc & output & Hrun).
    now rewrite (main_deps_raise _ _ _ Hrun).
Qed.

(** C3.  In a run of main in which [npm install] is run and exits with a
    code that is not zero, main catches the failure and returns 1; the
    console ends with the message of the failure, which carries the text of
    the exception; the only command handed to subprocess is [npm install],
    so the development server is never spawned. *)
Theorem install_failure_stops_launch
    (w : World) (output : list string) (code : Z) :
  install_skipped env w = false ->
  install_result env w = Exited output code ->
  code <> 0 ->
  exists w',
    main env w = (Ret 1, w') /\
    console w' =
      console w
      ++ [log_line (now env (ticks w)) "Starting SleekFinance launcher…";
          log_line (now env (S (ticks w)))
            "Installing dependencies with npm install …"]
      ++ output
      ++ [log_line (now env (S (S (ticks w))))
            ("Dependency installation failed: "
             +:+ "npm install failed. Check the log for details.")] /\
    spawned w' = spawned w ++ [(npm_install, ROOT env)].
Proof.
  intros Hs Hr Hcode. apply Z.eqb_neq in Hcode.
  pose proof (ensure_dependencies_installs (started env w) output code Hs Hr) as Hrun.
  rewrite Hcode in Hrun. eexists. split; [exact (main_deps_raise _ _ _ Hrun)|].
  cbn [console spawned fs ticks journal after_install started exn_str].
  split; [|reflexivity].
  rewrite <- !app_assoc. reflexivity.
Qed.

(** C4.  When the directory (node_modules env) exists at the project root,
    ensure_dependencies returns and hands no command to subprocess: the
    installation is skipped. *)
Theorem ensure_dependencies_skips_install (w : World) :
  fs w !! (node_modules env) = Some Dir ->
  exists w',
    ensure_dependencies env w = (Ret tt, w') /\
    spawned w' = spawned w /\
    fs w' = fs w.
Proof.
  intros H. eexists. split.
  - apply ensure_dependencies_skips.
    apply path_exists_lookup; [apply snoc_not_nil|]. now rewrite H.
  - split; reflexivity.
Qed.

(** C9.  The check looks at the existence of an entry named (node_modules env)
    and not at its kind: whatever the entry is, a regular file included,
    ensure_dependencies says that the dependencies are installed, hands no
    command to subprocess and returns; and when there is no such entry it
    hands [npm install] to subprocess. *)
Theorem ensure_dependencies_any_entry (w : World) :
  (forall e : entry,
     fs w !! (node_modules env) = Some e ->
     fst (ensure_dependencies env w) = Ret tt /\
     spawned (snd (ensure_dependencies env w)) = spawned w /\
     console (snd (ensure_dependencies env w)) =
       console w ++
       [log_line (now env (ticks w))
          "Dependencies already installed. Skipping npm install."]) /\
  (fs w !! (node_modules env) = None ->
   spawned (snd (ensure_dependencies env w)) =
     spawned w ++ [(npm_install, ROOT env)]).
Proof.
  split.
  - intros e H. rewrite ensure_dependencies_skips; [now repeat split|].
    apply path_exists_lookup; [apply snoc_not_nil|]. now rewrite H.
  - intros H.
    assert (path_exists (node_modules env) (fs w) = false) as He.
    { destruct (path_exists (node_modules env) (fs w)) eqn:E; [|reflexivity].
      apply path_exists_lookup in E as [e E]; [congruence|apply snoc_not_nil]. }
    destruct (child env (length (spawned w)) npm_install (ROOT env))
      as [e|output code] eqn:Hc.
    + now rewrite (ensure_dependencies_no_npm _ _ He Hc).
    + now rewrite (ensure_dependencies_installs _ _ _ He Hc).
Qed.

(** C10.  In a run of main in which the dependency installation fails, the
    file system is left as it was (so the log and its directory are neither
    created nor written) and no file is left open; the only command handed
    to subprocess is [npm install], and the message of the failure goes to
    the console, where it is the last thing written. *)
Theorem failed_install_leaves_log (w : World) :
  deps_ok env w = false ->
  fs (snd (main env w)) = fs w /\
  open_files (snd (main env w)) = open_files w /\
  spawned (snd (main env w)) = spawned w ++ [(npm_install, ROOT env)] /\
  exists exc written,
    console (snd (main env w)) =
      console w ++ written
      ++ [log_line (now env (S (S (ticks w))))
            ("Dependency installation failed: " +:+ exn_str exc)].
Proof.
  intros Hfail. destruct (deps_fail_run _ Hfail) as (exc & output & Hrun).
  rewrite (main_deps_raise _ _ _ Hrun).
  cbn [snd fs open_files spawned console ticks journal after_install started].
  split; [reflexivity|]. split; [reflexivity|]. split; [reflexivity|].
  exists exc.
  exists ([log_line (now env (ticks w)) "Starting SleekFinance launcher…";
           log_line (now env (S (ticks w)))
             "Installing dependencies with npm install …"] ++ output).
  now rewrite <- !app_assoc.
Qed.

(** C8.  When the command cannot be spawned, stream_process raises the
    failure of the spawn to its caller; and main, in a run that reaches the
    development server, does not catch it: the run of main ends with that
    same exception. *)
Theorem spawn_failure_propagates (w : World) (e : exn) :
  (forall command,
     log_writable env (fs w) = true ->
     child env (length (spawned w)) command (ROOT env) = CannotSpawn e ->
     fst (stream_process env command w) = Raise e) /\
  (deps_ok env w = true ->
   log_writable env (fs w) = true ->
   dev_result env w = CannotSpawn e ->
   fst (main env w) = Raise e).
Proof.
  split.
  - intros command Hw Hc. destruct (log_writable_mkdir _ Hw) as (m & Hm & Hd).
    now rewrite (stream_process_cannot_spawn _ _ _ _ Hm Hd Hc).
  - intros Hok Hw Hdev.
    destruct (main_deps_ok w Hok Hw) as (m & Hm & Hd & Hrun).
    rewrite (main_deps_return _ _ Hrun).
    unfold dev_result in Hdev. rewrite <- deps_done_spawned in Hdev.
    now rewrite (stream_process_cannot_spawn _ _ _ _ Hm Hd Hdev).
Qed.


Lemma for_each_app {A} (l1 l2 : list A) (body : A -> M unit) (w : World) :
  for_each (l1 ++ l2) body w =
    match for_each l1 body w with
    | (Ret _, w') => for_each l2 body w'
    | (Raise e, w') => (Raise e, w')
    end.
Proof.
  revert w. induction l1 as [|x l1 IH]; intros w; [reflexivity|].
  cbn [for_each app]. unfold bind.
  destruct (body x w) as [[[]|e] w1]; [apply IH|reflexivity].
Qed.

Lemma tee_app (f : nat) (l1 l2 : list string) (w : World) :
  tee f (l1 ++ l2) w =
    match tee f l1 w with
    | (Ret _, w') => tee f l2 w'
    | (Raise e, w') => (Raise e, w')
    end.
Proof. apply for_each_app. Qed.

Lemma log_content_insert (m : gmap path entry) (c : string) :
  log_content env (<[LOG_FILE env := File c]> m) = c.
Proof. unfold log_content. now rewrite lookup_insert_eq. Qed.

Lemma log_content_mkdir (m m' : gmap path entry) :
  mkdir_parents (LOG_DIR env) m = Ret m' -> log_content env m' = log_content env m.
Proof. intros H. unfold log_content. now rewrite (mkdir_keeps_log _ _ H). Qed.

(** ** The events of the loop *)








(** ** The log only grows *)

Lemma stream_process_appends (command : list string) (w : World) :
  exists s,
    log_content env (fs (snd (stream_process env command w)))
    = log_content env (fs w) +:+ s.
Proof.
  destruct (mkdir_parents (LOG_DIR env) (fs w)) as [m|e] eqn:Hm.
  - destruct (is_dir (LOG_FILE env) m) eqn:Hd.
    + exists "". rewrite (stream_process_open_raises _ _ _ Hm Hd).
      cbn [snd fs]. now rewrite (log_content_mkdir _ _ Hm), append_nil_r.
    + destruct (child env (length (spawned w)) command (ROOT env))
        as [e|output code] eqn:Hc.
      * eexists. rewrite (stream_process_cannot_spawn _ _ _ _ Hm Hd Hc).
        cbn [snd fs]. now rewrite log_content_insert.
      * eexists. rewrite (stream_process_exited _ _ _ _ _ Hm Hd Hc).
        cbn [snd fs]. now rewrite log_content_insert.
  - exists "". rewrite (stream_process_mkdir_raises _ _ _ Hm).
    now rewrite append_nil_r.
Qed.

Lemma main_appends (w : World) :
  exists s, log_content env (fs (snd (main env w))) = log_content env (fs w) +:+ s.
Proof.
  destruct (deps_ok env w) eqn:Hok.
  - rewrite (main_deps_return _ _ (deps_ok_run _ Hok)).
    destruct (stream_process_appends dev_command (deps_done env w)) as [s Hs].
    exists s. rewrite deps_done_fs in Hs.
    now destruct (stream_process env dev_command (deps_done env w)) as [[code|e] w3].
  - destruct (deps_fail_run _ Hok) as (exc & output & Hrun).
    exists "". rewrite (main_deps_raise _ _ _ Hrun).
    cbn [snd fs after_install started]. now rewrite append_nil_r.
Qed.

(** A run of main that reaches the development server, which exits:
    the file system afterwards. *)
Lemma main_completed (w : World) (output : list string) (code : Z) :
  deps_ok env w = true ->
  log_writable env (fs w) = true ->
  dev_result env w = Exited output code ->
  exists m,
    mkdir_parents (LOG_DIR env) (fs w) = Ret m /\
    fs (snd (main env w)) =
      <[LOG_FILE env :=
          File (log_content env (fs w)
                +:+ log_section (now env (S (S (ticks w)))) dev_command
                      output code)]> m /\
    spawned (snd (main env w)) = spawned (deps_done env w) ++ [(dev_command, ROOT env)] /\
    ticks (snd (main env w)) = S (S (S (S (ticks w)))).
Proof.
  intros Hok Hw Hdev.
  destruct (main_deps_ok w Hok Hw) as (m & Hm & Hd & Hrun).
  rewrite (main_deps_return _ _ Hrun).
  unfold dev_result in Hdev. rewrite <- deps_done_spawned in Hdev.
  rewrite (stream_process_exited _ _ _ _ _ Hm Hd Hdev).
  cbn [snd fs spawned ticks journal]. rewrite deps_done_fs in *. rewrite deps_done_ticks.
  exists m. now repeat split.
Qed.

Lemma no_file_on_rev_mono (rp : list string) (m m' : gmap path entry) :
  (forall q, q `prefix_of` rev rp -> is_file q m' = true -> is_file q m = true) ->
  no_file_on_rev rp m = true -> no_file_on_rev rp m' = true.
Proof.
  induction rp as [|x rp IH]; intros Hq H; [reflexivity|].
  cbn [no_file_on_rev] in *. apply andb_true_iff in H as [Hx Hrp].
  apply andb_true_iff. split.
  - apply negb_true_iff in Hx. apply negb_true_iff.
    destruct (is_file (rev (x :: rp)) m') eqn:E; [|reflexivity].
    rewrite <- Hx. symmetry. now apply Hq.
  - apply IH; [|assumption]. intros q Hp. apply Hq.
    cbn [rev]. now apply prefix_app_r.
Qed.

(** Once a section has been written, the log can be written again. *)
Lemma log_writable_after (m m' : gmap path entry) (c : string) :
  log_writable env m = true ->
  mkdir_parents (LOG_DIR env) m = Ret m' ->
  log_writable env (<[LOG_FILE env := File c]> m') = true.
Proof.
  unfold log_writable. intros H Hm. apply andb_true_iff in H as [Hc _].
  apply andb_true_iff. split.
  - apply (no_file_on_rev_mono _ m); [|assumption].
    rewrite rev_involutive. intros q Hq.
    assert (LOG_FILE env <> q) as Hne
      by (intros <-; now apply LOG_FILE_not_above in Hq).
    unfold is_file. rewrite (lookup_insert_ne _ _ _ _ Hne).
    apply mkdir_parents_rev_added in Hm as [Hadd _].
    destruct (Hadd q) as [->|(_ & -> & _)]; [tauto|discriminate].
  - apply negb_true_iff.
    destruct (is_dir (LOG_FILE env) (<[LOG_FILE env:=File c]> m')) eqn:E;
      [|reflexivity].
    apply is_dir_lookup in E; [|apply LOG_FILE_not_root].
    rewrite lookup_insert_eq in E. discriminate.
Qed.

(** C5, as amended.  Every run of main, however it ends, leaves the text
    the log had at the beginning of the log.  A run in which the
    installation is skipped or succeeds and the development server is
    spawned and exits adds exactly one framed section after that text; two
    such runs in a row, from an empty log, leave two framed sections. *)
Theorem log_append_only :
  (forall w,
     exists s, log_content env (fs (snd (main env w))) = log_content env (fs w) +:+ s) /\
  (forall w output code,
     deps_ok env w = true ->
     log_writable env (fs w) = true ->
     dev_result env w = Exited output code ->
     log_content env (fs (snd (main env w))) =
       log_content env (fs w)
       +:+ log_section (now env (S (S (ticks w)))) dev_command output code) /\
  (forall w output1 code1 output2 code2,
     log_content env (fs w) = "" ->
     deps_ok env w = true ->
     log_writable env (fs w) = true ->
     dev_result env w = Exited output1 code1 ->
     deps_ok env (snd (main env w)) = true ->
     dev_result env (snd (main env w)) = Exited output2 code2 ->
     log_content env (fs (snd (main env (snd (main env w))))) =
       log_section (now env (S (S (ticks w)))) dev_command output1 code1
       +:+ log_section (now env (S (S (ticks (snd (main env w))))))
             dev_command output2 code2).
Proof.
  split; [exact main_appends|]. split.
  - intros w output code Hok Hw Hdev.
    destruct (main_completed _ _ _ Hok Hw Hdev) as (m & _ & -> & _).
    apply log_content_insert.
  - intros w output1 code1 output2 code2 Hempty Hok Hw Hdev Hok2 Hdev2.
    destruct (main_completed _ _ _ Hok Hw Hdev) as (m & Hm & Hfs & _).
    assert (log_writable env (fs (snd (main env w))) = true) as Hw2
      by (rewrite Hfs; now apply (log_writable_after (fs w))).
    destruct (main_completed _ _ _ Hok2 Hw2 Hdev2) as (m2 & _ & -> & _).
    rewrite log_content_insert, Hfs, log_content_insert, Hempty.
    reflexivity.
Qed.

End Properties.

(** ** Beyond the claims: every path of stream_process *)

Section Further.

Context (env : Env).

Lemma mkdir_keeps_entries (p q : path) (m m' : gmap path entry) (e : entry) :
  mkdir_parents p m = Ret m' -> m !! q = Some e -> m' !! q = Some e.
Proof.
  intros H Hq. apply mkdir_parents_rev_added in H as [Hadd _].
  destruct (Hadd q) as [->|(Hn & _ & _)]; [assumption|congruence].
Qed.

Lemma mkdir_parents_rev_file (rp : list string) (m : gmap path entry) (c : string) :
  m !! rev rp = Some (File c) ->
  rev rp <> [] ->
  mkdir_parents_rev rp m = Raise (OSError EEXIST (path_str (rev rp))).
Proof.
  intros H Hne.
  assert (path_exists (rev rp) m = true) as He
    by (apply path_exists_lookup; [assumption|now rewrite H]).
  assert (is_dir (rev rp) m = false) as Hd.
  { destruct (is_dir (rev rp) m) eqn:E; [|reflexivity].
    apply is_dir_lookup in E; [congruence|assumption]. }
  destruct rp as [|x rp]; cbn [mkdir_parents_rev]; unfold os_mkdir;
    now rewrite He, Hd.
Qed.

(** The four ways through stream_process: the directory cannot be made;
    the log cannot be opened; the child cannot be spawned; the child
    exits. *)
Lemma stream_process_paths (command : list string) (w : World) :
  (exists e,
     mkdir_parents (LOG_DIR env) (fs w) = Raise e /\
     stream_process env command w = (Raise e, w)) \/
  (exists m,
     mkdir_parents (LOG_DIR env) (fs w) = Ret m /\
     is_dir (LOG_FILE env) m = true /\
     stream_process env command w =
       (Raise (OSError EISDIR (path_str (LOG_FILE env))),
        {| fs := m; open_files := open_files w; console := console w;
           spawned := spawned w; ticks := ticks w; journal := journal w |})) \/
  (exists m e,
     mkdir_parents (LOG_DIR env) (fs w) = Ret m /\
     is_dir (LOG_FILE env) m = false /\
     child env (length (spawned w)) command (ROOT env) = CannotSpawn e /\
     stream_process env command w =
       (Raise e,
        {| fs := <[LOG_FILE env :=
                    File (log_content env (fs w)
                          +:+ header (now env (ticks w)) command)]> m;
           open_files := open_files w;
           console := console w;
           spawned := spawned w ++ [(command, ROOT env)];
           ticks := S (ticks w); 
           journal := journal w
             ++ [Flushed (LOG_FILE env) (header (now env (ticks w)) command)] |})) \/
  (exists m output code,
     mkdir_parents (LOG_DIR env) (fs w) = Ret m /\
     is_dir (LOG_FILE env) m = false /\
     child env (length (spawned w)) command (ROOT env) = Exited output code /\
     stream_process env command w =
       (Ret code,
        {| fs := <[LOG_FILE env :=
                    File (log_content env (fs w)
                          +:+ log_section (now env (ticks w)) command output code)]> m;
           open_files := open_files w;
           console := console w ++ output;
           spawned := spawned w ++ [(command, ROOT env)];
           ticks := S (ticks w); 
           journal := journal w
             ++ section_events env (now env (ticks w)) command output code |})).
Proof.
  destruct (mkdir_parents (LOG_DIR env) (fs w)) as [m|e] eqn:Hm.
  - destruct (is_dir (LOG_FILE env) m) eqn:Hd.
    + right; left. exists m. split; [reflexivity|]. split; [exact Hd|].
      now apply stream_process_open_raises.
    + destruct (child env (length (spawned w)) command (ROOT env))
        as [e|output code] eqn:Hc.
      * right; right; left. exists m, e.
        split; [reflexivity|]. split; [exact Hd|]. split; [reflexivity|].
        now apply stream_process_cannot_spawn.
      * right; right; right. exists m, output, code.
        split; [reflexivity|]. split; [exact Hd|]. split; [reflexivity|].
        now apply stream_process_exited.
  - left. exists e. split; [reflexivity|].
    now apply stream_process_mkdir_raises.
Qed.

(** The ways through main: the installation fails; or it does not, and
    main goes on with stream_process from [deps_done]. *)
Lemma main_paths (w : World) :
  (deps_ok env w = false /\
   exists exc output,
     main env w =
       (Ret 1,
        {| fs := fs w; open_files := open_files w;
           console := console (after_install env output (started env w)) ++
             [log_line (now env (S (S (ticks w))))
                ("Dependency installation failed: " +:+ exn_str exc)];
           spawned := spawned w ++ [(npm_install, ROOT env)];
           ticks := S (S (S (ticks w))); 
           journal := journal (after_install env output (started env w)) ++
             [Printed (log_line (now env (S (S (ticks w))))
                         ("Dependency installation failed: " +:+ exn_str exc))] |})) \/
  (deps_ok env w = true /\
   main env w =
     match stream_process env dev_command (deps_done env w) with
     | (Ret code, w3) =>
         (Ret code,
          {| fs := fs w3; open_files := open_files w3;
             console := console w3 ++
               [log_line (now env (ticks w3)) (farewell env code)];
             spawned := spawned w3; ticks := S (ticks w3); 
             journal := journal w3 ++
               [Printed (log_line (now env (ticks w3)) (farewell env code))] |})
     | (Raise e, w3) => (Raise e, w3)
     end).
Proof.
  destruct (deps_ok env w) eqn:Hok.
  - right. split; [reflexivity|].
    apply main_deps_return. now apply deps_ok_run.
  - left. split; [reflexivity|].
    destruct (deps_fail_run _ _ Hok) as (exc & output & Hrun).
    exists exc, output. now rewrite (main_deps_raise _ _ _ _ Hrun).
Qed.


Lemma deps_done_spawned_list (w : World) :
  spawned (deps_done env w) =
    spawned w ++ (if install_skipped env w then [] else [(npm_install, ROOT env)]).
Proof.
  unfold deps_done. destruct (install_skipped env w); cbn [spawned after_install started].
  - now rewrite app_nil_r.
  - reflexivity.
Qed.


(** X2.  stream_process removes nothing and overwrites nothing but the log:
    an entry of the file system at any other path is still there, unchanged,
    afterwards, however stream_process ends. *)
Theorem stream_process_keeps_entries
    (command : list string) (w : World) (q : path) (e : entry) :
  q <> LOG_FILE env ->
  fs w !! q = Some e ->
  fs (snd (stream_process env command w)) !! q = Some e.
Proof.
  intros Hq He.
  destruct (stream_process_paths command w)
    as [(x & _ & ->)|[(m & Hm & _ & ->)|[(m & x & Hm & _ & _ & ->)
       |(m & output & code & Hm & _ & _ & ->)]]]; cbn [snd fs].
  - assumption.
  - exact (mkdir_keeps_entries _ _ _ _ _ Hm He).
  - rewrite lookup_insert_ne; [|congruence].
    exact (mkdir_keeps_entries _ _ _ _ _ Hm He).
  - rewrite lookup_insert_ne; [|congruence].
    exact (mkdir_keeps_entries _ _ _ _ _ Hm He).
Qed.

(** X3.  A value returned by stream_process is never made up: when
    stream_process returns [code], the command was spawned and exited with
    [code], its output is what the console received, and the log holds a
    complete section. *)
Theorem stream_process_return_is_exit_code
    (command : list string) (w : World) (code : Z) :
  fst (stream_process env command w) = Ret code ->
  exists output,
    child env (length (spawned w)) command (ROOT env) = Exited output code /\
    console (snd (stream_process env command w)) = console w ++ output /\
    log_content env (fs (snd (stream_process env command w))) =
      log_content env (fs w)
      +:+ log_section (now env (ticks w)) command output code.
Proof.
  destruct (stream_process_paths command w)
    as [(x & _ & ->)|[(m & _ & _ & ->)|[(m & x & _ & _ & _ & ->)
       |(m & output & code' & _ & _ & Hc & ->)]]]; cbn [fst snd fs console];
    try discriminate.
  intros [= ->]. exists output. split; [exact Hc|]. split; [reflexivity|].
  apply log_content_insert.
Qed.


(** X5.  A regular file where the log directory should be: stream_process
    raises the error of mkdir (EEXIST, on the path of the directory) and
    does nothing else; no command is spawned and no file is written. *)
Theorem stream_process_blocked_directory
    (command : list string) (w : World) (c : string) :
  fs w !! LOG_DIR env = Some (File c) ->
  stream_process env command w =
    (Raise (OSError EEXIST (path_str (LOG_DIR env))), w).
Proof.
  intros H. apply stream_process_mkdir_raises. unfold mkdir_parents.
  rewrite <- (rev_involutive (LOG_DIR env)) at 2.
  apply (mkdir_parents_rev_file _ _ c); rewrite rev_involutive;
    [assumption|apply LOG_DIR_not_root].
Qed.

(** X6.  A directory where the log file should be, in a file system where
    the log directory can be made: stream_process raises the error of open
    (EISDIR, on the path of the log) before any command is spawned and
    before anything is written to the console. *)
Theorem stream_process_log_is_directory (command : list string) (w : World) :
  no_file_on_rev (rev (LOG_DIR env)) (fs w) = true ->
  fs w !! LOG_FILE env = Some Dir ->
  fst (stream_process env command w) =
    Raise (OSError EISDIR (path_str (LOG_FILE env))) /\
  spawned (snd (stream_process env command w)) = spawned w /\
  console (snd (stream_process env command w)) = console w /\
  fs (snd (stream_process env command w)) !! LOG_FILE env = Some Dir.
Proof.
  intros Hclear Hlog.
  destruct (mkdir_parents_rev_clear _ _ Hclear) as [m Hm].
  change (mkdir_parents (LOG_DIR env) (fs w) = Ret m) in Hm.
  assert (m !! LOG_FILE env = Some Dir) as Hlog'
    by now rewrite (mkdir_keeps_log _ _ _ Hm).
  assert (is_dir (LOG_FILE env) m = true) as Hd
    by (apply is_dir_lookup; [apply LOG_FILE_not_root|assumption]).
  rewrite (stream_process_open_raises _ _ _ _ Hm Hd).
  cbn [fst snd fs spawned console]. repeat split. assumption.
Qed.

(** X7.  The command cannot be spawned: the invocation still leaves its
    header in the log, written out when the file is closed, with no output
    and no footer after it; the attempt is the one call to subprocess, and
    the console receives nothing. *)
Theorem stream_process_unspawned_leaves_header
    (command : list string) (w : World) (e : exn) :
  log_writable env (fs w) = true ->
  child env (length (spawned w)) command (ROOT env) = CannotSpawn e ->
  fs (snd (stream_process env command w)) !! LOG_FILE env =
    Some (File (log_content env (fs w)
                +:+ separator +:+ launch_line (now env (ticks w))
                +:+ command_line command)) /\
  console (snd (stream_process env command w)) = console w /\
  spawned (snd (stream_process env command w)) =
    spawned w ++ [(command, ROOT env)].
Proof.
  intros Hw Hc. destruct (log_writable_mkdir _ _ Hw) as (m & Hm & Hd).
  rewrite (stream_process_cannot_spawn _ _ _ _ _ Hm Hd Hc).
  cbn [snd fs console spawned]. split; [|split; reflexivity].
  now rewrite lookup_insert_eq.
Qed.

(** ** Beyond the claims: ensure_dependencies and main *)

(** X9.  ensure_dependencies returns exactly when the installation is
    skipped or [npm install] exits with code 0; in every other case (a
    code that is not 0, or no npm to spawn) it raises. *)
Theorem ensure_dependencies_returns_iff (w : World) :
  fst (ensure_dependencies env w) = Ret tt <-> deps_ok env w = true.
Proof.
  unfold deps_ok, install_skipped, install_result.
  destruct (path_exists (node_modules env) (fs w)) eqn:He.
  - rewrite (ensure_dependencies_skips _ _ He). now split.
  - destruct (child env (length (spawned w)) npm_install (ROOT env))
      as [e|output code] eqn:Hc.
    + rewrite (ensure_dependencies_no_npm _ _ _ He Hc). now split.
    + rewrite (ensure_dependencies_installs _ _ _ _ He Hc). cbn [fst orb].
      destruct (code =? 0); now split.
Qed.

(** X11.  main treats an [npm install] that cannot be spawned like one that
    fails: the exception of the spawn is caught, its text is reported on
    the console after "Dependency installation failed: ", main returns 1,
    and the development server is not spawned. *)
Theorem main_catches_missing_npm (w : World) (e : exn) :
  install_skipped env w = false ->
  install_result env w = CannotSpawn e ->
  exists w',
    main env w = (Ret 1, w') /\
    console w' =
      console w
      ++ [log_line (now env (ticks w)) "Starting SleekFinance launcher…";
          log_line (now env (S (ticks w)))
            "Installing dependencies with npm install …";
          log_line (now env (S (S (ticks w))))
            ("Dependency installation failed: " +:+ exn_str e)] /\
    spawned w' = spawned w ++ [(npm_install, ROOT env)] /\
    fs w' = fs w.
Proof.
  intros Hs Hr.
  pose proof (ensure_dependencies_no_npm env (started env w) e Hs Hr) as Hrun.
  eexists. split; [exact (main_deps_raise _ _ _ _ Hrun)|].
  cbn [console spawned fs ticks journal after_install started].
  split; [|split; reflexivity].
  now rewrite <- !app_assoc.
Qed.

(** X12.  A run of main that reaches the development server and sees it
    exit: after what the dependency step left on the console come the lines
    of the server, in order, and then one last message, which says that the
    server exited cleanly and names the log when the exit code is 0, and
    says that it exited with errors and names the resolved path of the log
    otherwise.  The server is the last command spawned. *)
Theorem main_reports_exit
    (w : World) (output : list string) (code : Z) :
  deps_ok env w = true ->
  log_writable env (fs w) = true ->
  dev_result env w = Exited output code ->
  console (snd (main env w)) =
    console (deps_done env w) ++ output
    ++ [log_line (now env (S (S (S (ticks w)))))
          (if code =? 0 then
             "Development server exited cleanly. Full log written to "
             +:+ path_str (LOG_FILE env) +:+ "."
           else
             "Development server exited with errors. Review the log file at "
             +:+ path_str (resolve env (LOG_FILE env)) +:+ " for diagnostics.")] /\
  spawned (snd (main env w)) =
    spawned (deps_done env w)
    ++ [(["npm"; "run"; "dev"; "--"; "--host"; "0.0.0.0"], ROOT env)].
Proof.
  intros Hok Hw Hdev.
  destruct (main_deps_ok _ w Hok Hw) as (m & Hm & Hd & Hrun).
  rewrite (main_deps_return _ _ _ Hrun).
  unfold dev_result in Hdev. rewrite <- deps_done_spawned in Hdev.
  rewrite (stream_process_exited _ _ _ _ _ _ Hm Hd Hdev).
  cbn [snd console spawned ticks journal]. rewrite deps_done_ticks.
  split; [|reflexivity]. now rewrite <- app_assoc.
Qed.

(** X13.  A value returned by main has one of two origins: it is 1 and the
    dependency installation failed, or the installation did not fail and it
    is the exit code of the development server, which was spawned and
    exited. *)
Theorem main_return_origin (w : World) (code : Z) :
  fst (main env w) = Ret code ->
  (deps_ok env w = false /\ code = 1) \/
  (deps_ok env w = true /\
   exists output, dev_result env w = Exited output code).
Proof.
  destruct (main_paths w) as [(Hok & exc & output & ->)|(Hok & ->)].
  - intros [= <-]. now left.
  - intros H. right. split; [assumption|].
    destruct (stream_process_paths dev_command (deps_done env w))
      as [(x & _ & E)|[(m & _ & _ & E)|[(m & x & _ & _ & _ & E)
         |(m & output & code' & _ & _ & Hc & E)]]];
      rewrite E in H; cbn [fst] in H; try discriminate.
    injection H as ->. exists output.
    unfold dev_result. now rewrite <- deps_done_spawned.
Qed.

(** X14.  With the dependencies in order and a regular file where the log
    directory should be, main does not return: the error of mkdir comes out
    of main, after the messages of the dependency step; the development
    server is not spawned, the file in the way is left where it is and the
    log is not touched. *)
Theorem main_blocked_directory (w : World) (c : string) :
  deps_ok env w = true ->
  fs w !! LOG_DIR env = Some (File c) ->
  fst (main env w) = Raise (OSError EEXIST (path_str (LOG_DIR env))) /\
  spawned (snd (main env w)) = spawned (deps_done env w) /\
  console (snd (main env w)) = console (deps_done env w) /\
  fs (snd (main env w)) !! LOG_DIR env = Some (File c) /\
  fs (snd (main env w)) !! LOG_FILE env = fs w !! LOG_FILE env.
Proof.
  intros Hok Hfile.
  rewrite (main_deps_return _ _ _ (deps_ok_run _ _ Hok)).
  assert (mkdir_parents (LOG_DIR env) (fs (deps_done env w))
          = Raise (OSError EEXIST (path_str (LOG_DIR env)))) as Hm.
  { rewrite deps_done_fs. unfold mkdir_parents.
    rewrite <- (rev_involutive (LOG_DIR env)) at 2.
    apply (mkdir_parents_rev_file _ _ c); rewrite rev_involutive;
      [assumption|apply LOG_DIR_not_root]. }
  rewrite (stream_process_mkdir_raises _ _ _ _ Hm). cbn [fst snd].
  rewrite deps_done_fs. now repeat split.
Qed.

(** X15.  Whatever happens, main hands to subprocess at most [npm install],
    when node_modules is missing, and then at most the development server,
    and only when the dependency step did not fail; both in the project
    root, and nothing else. *)
Theorem main_spawns_only (w : World) :
  exists served : bool,
    spawned (snd (main env w)) =
      spawned w
      ++ (if install_skipped env w then [] else [(npm_install, ROOT env)])
      ++ (if served then [(dev_command, ROOT env)] else []) /\
    (served = true -> deps_ok env w = true).
Proof.
  destruct (main_paths w) as [(Hok & exc & output & ->)|(Hok & ->)].
  - exists false. split; [|discriminate]. cbn [snd spawned].
    unfold deps_ok in Hok. apply orb_false_iff in Hok as [-> _].
    now rewrite app_nil_r.
  - pose proof (deps_done_spawned_list w) as Hd.
    destruct (stream_process_paths dev_command (deps_done env w))
      as [(x & _ & ->)|[(m & _ & _ & ->)|[(m & x & _ & _ & _ & ->)
         |(m & output & code' & _ & _ & _ & ->)]]]; cbn [snd spawned].
    + exists false. split; [|discriminate]. now rewrite app_nil_r.
    + exists false. split; [|discriminate]. now rewrite app_nil_r.
    + exists true. split; [|intros _; exact Hok]. now rewrite Hd, <- app_assoc.
    + exists true. split; [|intros _; exact Hok]. now rewrite Hd, <- app_assoc.
Qed.


End Further.

(** ** The claims on concrete runs *)

(** The scenario of the specification: with [echo hello] as the command,
    the console receives the line hello, the exit code is 0, and the log
    ends with the footer line. *)
Example echo_hello :
  let r := stream_process (demo_env 0 0) ["echo"; "hello"] w_fresh in
  fst r = Ret 0 /\
  console (snd r) = ["hello" +:+ nl] /\
  log_content (demo_env 0 0) (fs (snd r)) =
    nl +:+ str_mul "=" 80 +:+ nl
    +:+ "Launch at 2024-03-09T12:00:00" +:+ nl
    +:+ "Command: echo hello" +:+ nl +:+ nl
    +:+ "hello" +:+ nl
    +:+ nl +:+ "Process exited with code 0" +:+ nl.
Proof. vm_compute. repeat split. Qed.

Lemma stream_process_tees_output_witness :
  exists w',
    stream_process (demo_env 0 0) ["echo"; "hello"] w_fresh = (Ret 0, w') /\
    console w' = console w_fresh ++ ["hello" +:+ nl] /\
    fs w' !! LOG_FILE (demo_env 0 0) =
      Some (File (log_content (demo_env 0 0) (fs w_fresh)
                  +:+ header (at_noon 0) ["echo"; "hello"]
                  +:+ cat ["hello" +:+ nl]
                  +:+ footer 0)).
Proof.
  apply (stream_process_tees_output (demo_env 0 0)
           ["echo"; "hello"] ["hello" +:+ nl] 0 w_fresh);
    vm_compute; reflexivity.
Defined.

Lemma stream_process_frames_log_witness :
  fst (stream_process (demo_env 0 0) ["echo"; "hello"] w_fresh) = Ret 0 /\
  exists before,
    fs (snd (stream_process (demo_env 0 0) ["echo"; "hello"] w_fresh))
      !! LOG_FILE (demo_env 0 0) =
      Some (File (before +:+ "Process exited with code 0" +:+ nl)).
Proof.
  assert (log_writable (demo_env 0 0) (fs w_fresh) = true) as Hw
    by (vm_compute; reflexivity).
  destruct (stream_process_frames_log (demo_env 0 0) ["echo"; "hello"] w_fresh Hw)
    as (_ & _ & Hexit).
  destruct (Hexit ["hello" +:+ nl] 0) as (Hret & _ & Hfooter);
    [vm_compute; reflexivity|].
  split; [exact Hret|exact (Hfooter eq_refl)].
Defined.

Lemma main_exit_code_witness :
  fst (main (demo_env 0 7) w_fresh) = Ret 7 /\
  fst (main (demo_env 0 7) w_ready) = Ret 7 /\
  fst (main (demo_env 1 0) w_fresh) = Ret 1.
Proof.
  split; [|split].
  - apply (proj1 (main_exit_code (demo_env 0 7) w_fresh)
             ["ready" +:+ nl; "stopped" +:+ nl] 7); vm_compute; reflexivity.
  - apply (proj1 (main_exit_code (demo_env 0 7) w_ready)
             ["ready" +:+ nl; "stopped" +:+ nl] 7); vm_compute; reflexivity.
  - apply (proj2 (main_exit_code (demo_env 1 0) w_fresh)); vm_compute; reflexivity.
Defined.

Lemma install_failure_stops_launch_witness :
  exists w',
    main (demo_env 2 0) w_fresh = (Ret 1, w') /\
    console w' =
      console w_fresh
      ++ [log_line (at_noon 0) "Starting SleekFinance launcher…";
          log_line (at_noon 1) "Installing dependencies with npm install …"]
      ++ ["added 1 package" +:+ nl]
      ++ [log_line (at_noon 2)
            ("Dependency installation failed: "
             +:+ "npm install failed. Check the log for details.")] /\
    spawned w' = spawned w_fresh ++ [(npm_install, ["srv"; "app"])].
Proof.
  apply (install_failure_stops_launch (demo_env 2 0) w_fresh
           ["added 1 package" +:+ nl] 2);
    [vm_compute; reflexivity|vm_compute; reflexivity|lia].
Defined.

Lemma ensure_dependencies_skips_install_witness :
  exists w',
    ensure_dependencies (demo_env 0 0) w_ready = (Ret tt, w') /\
    spawned w' = spawned w_ready /\
    fs w' = fs w_ready.
Proof.
  apply (ensure_dependencies_skips_install (demo_env 0 0) w_ready).
  vm_compute; reflexivity.
Defined.

Lemma ensure_dependencies_any_entry_witness :
  (fst (ensure_dependencies (demo_env 0 0) w_marker_file) = Ret tt /\
   spawned (snd (ensure_dependencies (demo_env 0 0) w_marker_file)) = [] /\
   console (snd (ensure_dependencies (demo_env 0 0) w_marker_file)) =
     [log_line (at_noon 0)
        "Dependencies already installed. Skipping npm install."]) /\
  spawned (snd (ensure_dependencies (demo_env 0 0) w_fresh)) =
    [(npm_install, ["srv"; "app"])].
Proof.
  split.
  - apply (proj1 (ensure_dependencies_any_entry (demo_env 0 0) w_marker_file)
             (File "")).
    vm_compute; reflexivity.
  - apply (proj2 (ensure_dependencies_any_entry (demo_env 0 0) w_fresh)).
    vm_compute; reflexivity.
Defined.

Lemma failed_install_leaves_log_witness :
  fs (snd (main (demo_env 1 0) w_old_log)) = fs w_old_log /\
  open_files (snd (main (demo_env 1 0) w_old_log)) = open_files w_old_log /\
  spawned (snd (main (demo_env 1 0) w_old_log)) =
    spawned w_old_log ++ [(npm_install, ["srv"; "app"])] /\
  exists exc written,
    console (snd (main (demo_env 1 0) w_old_log)) =
      console w_old_log ++ written
      ++ [log_line (at_noon 2)
            ("Dependency installation failed: " +:+ exn_str exc)].
Proof.
  apply (failed_install_leaves_log (demo_env 1 0) w_old_log).
  vm_compute; reflexivity.
Defined.

Lemma spawn_failure_propagates_witness :
  fst (stream_process bare_env ["vite"] w_fresh) = Raise (OSError ENOENT "vite") /\
  fst (main bare_env w_ready) = Raise (OSError ENOENT "npm").
Proof.
  split.
  - apply (proj1 (spawn_failure_propagates bare_env w_fresh (OSError ENOENT "vite"))
             ["vite"]); vm_compute; reflexivity.
  - apply (proj2 (spawn_failure_propagates bare_env w_ready (OSError ENOENT "npm")));
      vm_compute; reflexivity.
Defined.


(** C5, as it is stated, fails on a run whose installation fails: the log
    held "old" before the run and holds "old" after it, with no new
    section. *)
Lemma log_append_only_counterexample :
  ~ exists t command output code,
      log_content (demo_env 1 0) (fs (snd (main (demo_env 1 0) w_old_log))) =
        log_content (demo_env 1 0) (fs w_old_log)
        +:+ log_section t command output code.
Proof.
  intros (t & command & output & code & E).
  assert (log_content (demo_env 1 0) (fs (snd (main (demo_env 1 0) w_old_log)))
          = "old") as Hafter by (vm_compute; reflexivity).
  assert (log_content (demo_env 1 0) (fs w_old_log) = "old") as Hbefore
    by (vm_compute; reflexivity).
  rewrite Hafter, Hbefore in E.
  unfold log_section, header, separator, nl in E.
  rewrite !append_cons, append_nil_l in E. discriminate E.
Qed.

Lemma log_append_only_witness :
  (exists s,
     log_content (demo_env 1 0) (fs (snd (main (demo_env 1 0) w_old_log)))
     = "old" +:+ s) /\
  log_content (demo_env 0 0) (fs (snd (main (demo_env 0 0) w_old_log))) =
    "old" +:+ log_section (at_noon 2) dev_command
                ["ready" +:+ nl; "stopped" +:+ nl] 0 /\
  log_content (demo_env 0 3)
    (fs (snd (main (demo_env 0 3) (snd (main (demo_env 0 3) w_fresh))))) =
    log_section (at_noon 2) dev_command ["ready" +:+ nl; "stopped" +:+ nl] 3
    +:+ log_section (at_noon 6) dev_command ["ready" +:+ nl; "stopped" +:+ nl] 3.
Proof.
  split; [|split].
  - apply (proj1 (log_append_only (demo_env 1 0)) w_old_log).
  - apply (proj1 (proj2 (log_append_only (demo_env 0 0))) w_old_log
             ["ready" +:+ nl; "stopped" +:+ nl] 0); vm_compute; reflexivity.
  - apply (proj2 (proj2 (log_append_only (demo_env 0 3))) w_fresh
             ["ready" +:+ nl; "stopped" +:+ nl] 3
             ["ready" +:+ nl; "stopped" +:+ nl] 3); vm_compute; reflexivity.
Defined.

(** ** Beyond the claims, on concrete runs *)

Lemma stream_process_keeps_entries_witness :
  fs (snd (stream_process (demo_env 0 0) ["echo"; "hello"] w_ready))
    !! ["srv"; "app"; "node_modules"] = Some Dir.
Proof.
  apply (stream_process_keeps_entries (demo_env 0 0) ["echo"; "hello"] w_ready);
    [discriminate|vm_compute; reflexivity].
Defined.

Lemma stream_process_return_is_exit_code_witness :
  exists output,
    child (demo_env 0 0) (length (spawned w_fresh)) ["echo"; "hello"]
      (ROOT (demo_env 0 0)) = Exited output 0 /\
    console (snd (stream_process (demo_env 0 0) ["echo"; "hello"] w_fresh)) =
      console w_fresh ++ output /\
    log_content (demo_env 0 0)
      (fs (snd (stream_process (demo_env 0 0) ["echo"; "hello"] w_fresh))) =
      log_content (demo_env 0 0) (fs w_fresh)
      +:+ log_section (at_noon 0) ["echo"; "hello"] output 0.
Proof.
  apply (stream_process_return_is_exit_code (demo_env 0 0) ["echo"; "hello"]
           w_fresh 0).
  vm_compute; reflexivity.
Defined.

Lemma stream_process_blocked_directory_witness :
  stream_process (demo_env 0 0) dev_command w_logs_is_file =
    (Raise (OSError EEXIST "/srv/app/logs"), w_logs_is_file).
Proof.
  apply (stream_process_blocked_directory (demo_env 0 0) dev_command
           w_logs_is_file "notes").
  vm_compute; reflexivity.
Defined.

Lemma stream_process_log_is_directory_witness :
  fst (stream_process (demo_env 0 0) dev_command w_log_is_dir) =
    Raise (OSError EISDIR "/srv/app/logs/sleekfinance-dev.log") /\
  spawned (snd (stream_process (demo_env 0 0) dev_command w_log_is_dir)) = [] /\
  console (snd (stream_process (demo_env 0 0) dev_command w_log_is_dir)) = [] /\
  fs (snd (stream_process (demo_env 0 0) dev_command w_log_is_dir))
    !! LOG_FILE (demo_env 0 0) = Some Dir.
Proof.
  apply (stream_process_log_is_directory (demo_env 0 0) dev_command w_log_is_dir);
    vm_compute; reflexivity.
Defined.

Lemma stream_process_unspawned_leaves_header_witness :
  fs (snd (stream_process bare_env ["vite"] w_old_log)) !! LOG_FILE bare_env =
    Some (File (log_content bare_env (fs w_old_log)
                +:+ separator +:+ launch_line (at_noon 0)
                +:+ command_line ["vite"])) /\
  console (snd (stream_process bare_env ["vite"] w_old_log)) = [] /\
  spawned (snd (stream_process bare_env ["vite"] w_old_log)) =
    [(["vite"], ["srv"; "app"])].
Proof.
  apply (stream_process_unspawned_leaves_header bare_env ["vite"] w_old_log
           (OSError ENOENT "vite")); vm_compute; reflexivity.
Defined.

Lemma ensure_dependencies_returns_iff_witness :
  fst (ensure_dependencies (demo_env 0 0) w_fresh) = Ret tt /\
  deps_ok (demo_env 3 0) w_fresh = false.
Proof.
  split.
  - apply (proj2 (ensure_dependencies_returns_iff (demo_env 0 0) w_fresh)).
    vm_compute; reflexivity.
  - destruct (deps_ok (demo_env 3 0) w_fresh) eqn:E; [|reflexivity].
    apply (proj2 (ensure_dependencies_returns_iff (demo_env 3 0) w_fresh)) in E.
    vm_compute in E. discriminate E.
Defined.

Lemma main_catches_missing_npm_witness :
  exists w',
    main bare_env w_fresh = (Ret 1, w') /\
    console w' =
      console w_fresh
      ++ [log_line (at_noon 0) "Starting SleekFinance launcher…";
          log_line (at_noon 1) "Installing dependencies with npm install …";
          log_line (at_noon 2)
            ("Dependency installation failed: "
             +:+ exn_str (OSError ENOENT "npm"))] /\
    spawned w' = spawned w_fresh ++ [(npm_install, ["srv"; "app"])] /\
    fs w' = fs w_fresh.
Proof.
  apply (main_catches_missing_npm bare_env w_fresh (OSError ENOENT "npm"));
    vm_compute; reflexivity.
Defined.

Lemma main_reports_exit_witness :
  (console (snd (main (demo_env 0 0) w_ready)) =
     console (deps_done (demo_env 0 0) w_ready)
     ++ ["ready" +:+ nl; "stopped" +:+ nl]
     ++ [log_line (at_noon 3)
           ("Development server exited cleanly. Full log written to "
            +:+ "/srv/app/logs/sleekfinance-dev.log" +:+ ".")] /\
   spawned (snd (main (demo_env 0 0) w_ready)) =
     spawned (deps_done (demo_env 0 0) w_ready)
     ++ [(["npm"; "run"; "dev"; "--"; "--host"; "0.0.0.0"], ["srv"; "app"])]) /\
  (console (snd (main (demo_env 0 2) w_ready)) =
     console (deps_done (demo_env 0 2) w_ready)
     ++ ["ready" +:+ nl; "stopped" +:+ nl]
     ++ [log_line (at_noon 3)
           ("Development server exited with errors. Review the log file at "
            +:+ "/srv/app/logs/sleekfinance-dev.log" +:+ " for diagnostics.")] /\
   spawned (snd (main (demo_env 0 2) w_ready)) =
     spawned (deps_done (demo_env 0 2) w_ready)
     ++ [(["npm"; "run"; "dev"; "--"; "--host"; "0.0.0.0"], ["srv"; "app"])]).
Proof.
  split.
  - apply (main_reports_exit (demo_env 0 0) w_ready
             ["ready" +:+ nl; "stopped" +:+ nl] 0); vm_compute; reflexivity.
  - apply (main_reports_exit (demo_env 0 2) w_ready
             ["ready" +:+ nl; "stopped" +:+ nl] 2); vm_compute; reflexivity.
Defined.

Lemma main_return_origin_witness :
  (deps_ok (demo_env 0 5) w_fresh = false /\ 5 = 1) \/
  (deps_ok (demo_env 0 5) w_fresh = true /\
   exists output, dev_result (demo_env 0 5) w_fresh = Exited output 5).
Proof.
  apply (main_return_origin (demo_env 0 5) w_fresh 5). vm_compute; reflexivity.
Defined.

Lemma main_blocked_directory_witness :
  fst (main (demo_env 0 0) w_logs_is_file) =
    Raise (OSError EEXIST "/srv/app/logs") /\
  spawned (snd (main (demo_env 0 0) w_logs_is_file)) =
    spawned (deps_done (demo_env 0 0) w_logs_is_file) /\
  console (snd (main (demo_env 0 0) w_logs_is_file)) =
    console (deps_done (demo_env 0 0) w_logs_is_file) /\
  fs (snd (main (demo_env 0 0) w_logs_is_file)) !! LOG_DIR (demo_env 0 0) =
    Some (File "notes") /\
  fs (snd (main (demo_env 0 0) w_logs_is_file)) !! LOG_FILE (demo_env 0 0) =
    fs w_logs_is_file !! LOG_FILE (demo_env 0 0).
Proof.
  apply (main_blocked_directory (demo_env 0 0) w_logs_is_file "notes");
    vm_compute; reflexivity.
Defined.

